(** * Beast Consultancy backend: the recommendation engine of [backend/app.py]

    A shallow embedding of the [/recommend] request handler and of the helper
    functions it calls, followed by the properties of the engine.

    Modelling conventions.
    - Python exceptions are the [Raise] branch of an error monad; the handler
      has no [try] block other than the five [except ValueError] coercions, so
      a raised exception leaves the handler.
    - A Python [float] is a [pyfloat]: an exact rational, or one of the three
      special values [inf], [-inf], [nan].  Rounding of binary64 arithmetic is
      not modelled: a sum, a difference and the product [0.8 * budget] are
      the exact rational ones, so the model and the program can differ where
      a result rounds across a threshold.  The behaviour of comparisons and
      arithmetic at the special values is modelled.
    - The request body is a [json] value, as [request.get_json] returns it.
    - The catalogue ([DB], [COUNTRY_BY_CODE]) is loaded from files that are not
      part of the source; it is a parameter of every function that reads it.
      Its numeric fields are finite JSON numbers (type [Q]) and its fields
      carry the value types the code expects.
    - Strings are byte strings; case mapping and whitespace follow Python on
      the ASCII range only (Python maps the case of every Unicode letter,
      which can change the length of a text). *)

From Stdlib Require Import ZArith QArith Qabs Lqa Lia Bool List String Ascii.
From Stdlib Require Import Sorting.Sorted Sorting.Permutation.
Import ListNotations.

Local Open Scope string_scope.
Local Open Scope list_scope.
Local Open Scope Z_scope.

(* ================================================================== *)
(** ** Exceptions and the error monad *)

Inductive exn : Type :=
| ValueError
| TypeError
| OverflowError
| AttributeError.

Inductive result (A : Type) : Type :=
| Ok (a : A)
| Raise (e : exn).

Arguments Ok {A} a.
Arguments Raise {A} e.

Definition bind {A B : Type} (m : result A) (k : A -> result B) : result B :=
  match m with
  | Ok a => k a
  | Raise e => Raise e
  end.

Notation "x <- m ;; k" := (bind m (fun x => k))
  (at level 61, m at next level, right associativity).

(** [try: m except ValueError: d] *)
Definition except_ValueError {A : Type} (m : result A) (d : A) : result A :=
  match m with
  | Raise ValueError => Ok d
  | other => other
  end.

(* ================================================================== *)
(** ** Python floats *)

Inductive pyfloat : Type :=
| PFin (q : Q)
| PPosInf
| PNegInf
| PNaN.

Definition pf_zero : pyfloat := PFin 0.
Definition pf_one : pyfloat := PFin 1.

Definition Qltb (x y : Q) : bool := negb (Qle_bool y x).

(** [a <= b] *)
Definition pf_le (a b : pyfloat) : bool :=
  match a, b with
  | PNaN, _ | _, PNaN => false
  | PFin x, PFin y => Qle_bool x y
  | PNegInf, _ => true
  | _, PPosInf => true
  | _, _ => false
  end.

(** [a < b] *)
Definition pf_lt (a b : pyfloat) : bool :=
  match a, b with
  | PNaN, _ | _, PNaN => false
  | PFin x, PFin y => Qltb x y
  | PNegInf, PNegInf => false
  | PNegInf, _ => true
  | PPosInf, _ => false
  | PFin _, PPosInf => true
  | PFin _, PNegInf => false
  end.

(** [a >= b] and [a > b] *)
Definition pf_ge (a b : pyfloat) : bool := pf_le b a.
Definition pf_gt (a b : pyfloat) : bool := pf_lt b a.

(** [a == b] *)
Definition pf_eqb (a b : pyfloat) : bool :=
  match a, b with
  | PFin x, PFin y => Qeq_bool x y
  | PPosInf, PPosInf => true
  | PNegInf, PNegInf => true
  | _, _ => false
  end.

Definition pf_neg (a : pyfloat) : pyfloat :=
  match a with
  | PFin x => PFin (- x)
  | PPosInf => PNegInf
  | PNegInf => PPosInf
  | PNaN => PNaN
  end.

(** [a + b] *)
Definition pf_add (a b : pyfloat) : pyfloat :=
  match a, b with
  | PNaN, _ | _, PNaN => PNaN
  | PFin x, PFin y => PFin (x + y)
  | PPosInf, PNegInf | PNegInf, PPosInf => PNaN
  | PPosInf, _ | _, PPosInf => PPosInf
  | PNegInf, _ | _, PNegInf => PNegInf
  end.

(** [a - b] *)
Definition pf_sub (a b : pyfloat) : pyfloat := pf_add a (pf_neg b).

Definition signed_inf (negative : bool) : pyfloat :=
  if negative then PNegInf else PPosInf.

(** [a * b] *)
Definition pf_mul (a b : pyfloat) : pyfloat :=
  match a, b with
  | PNaN, _ | _, PNaN => PNaN
  | PFin x, PFin y => PFin (x * y)
  | PFin x, PPosInf | PPosInf, PFin x =>
      if Qeq_bool x 0 then PNaN else signed_inf (Qltb x 0)
  | PFin x, PNegInf | PNegInf, PFin x =>
      if Qeq_bool x 0 then PNaN else signed_inf (negb (Qltb x 0))
  | PPosInf, PPosInf | PNegInf, PNegInf => PPosInf
  | PPosInf, PNegInf | PNegInf, PPosInf => PNegInf
  end.

(** The same float value ([nan] is a value here, as an argument is). *)
Definition pf_same (a b : pyfloat) : Prop :=
  match a, b with
  | PFin x, PFin y => (x == y)%Q
  | PPosInf, PPosInf | PNegInf, PNegInf | PNaN, PNaN => True
  | _, _ => False
  end.

(** Integers at or beyond this bound do not convert to a float
    ([OverflowError]); decimal literals beyond it read as [inf]. *)
Definition float_overflow_bound : Z := 2 ^ 1024 - 2 ^ 970.

Definition float_of_Z (z : Z) : result pyfloat :=
  if float_overflow_bound <=? Z.abs z then Raise OverflowError
  else Ok (PFin (inject_Z z)).

(** [int(x)] for a float: truncation towards zero. *)
Definition int_of_float (f : pyfloat) : result Z :=
  match f with
  | PFin q => Ok (Z.quot (Qnum q) (Z.pos (Qden q)))
  | PPosInf | PNegInf => Raise OverflowError
  | PNaN => Raise ValueError
  end.

(* ================================================================== *)
(** ** Strings (ASCII range) *)

(** [ord(c)] *)
Definition ord (c : ascii) : N := N_of_ascii c.

Definition in_range (lo hi : N) (c : ascii) : bool :=
  (N.leb lo (ord c) && N.leb (ord c) hi)%bool.

(** [str.isspace] on the ASCII range: TAB..CR, FS..US and the space. *)
Definition is_space (c : ascii) : bool :=
  (in_range 9 13 c || in_range 28 32 c)%bool.

Definition is_digit (c : ascii) : bool := in_range 48 57 c.
Definition is_lower (c : ascii) : bool := in_range 97 122 c.
Definition is_upper (c : ascii) : bool := in_range 65 90 c.

Definition digit_val (c : ascii) : Z := Z.of_N (ord c) - 48.

Definition to_upper (c : ascii) : ascii :=
  if is_lower c then ascii_of_N (ord c - 32) else c.

Definition to_lower (c : ascii) : ascii :=
  if is_upper c then ascii_of_N (ord c + 32) else c.

Definition chars (s : string) : list ascii := list_ascii_of_string s.
Definition str (l : list ascii) : string := string_of_list_ascii l.

(** [s.upper()], [s.lower()] *)
Definition upper (s : string) : string := str (map to_upper (chars s)).
Definition lower (s : string) : string := str (map to_lower (chars s)).

Fixpoint lstrip (l : list ascii) : list ascii :=
  match l with
  | c :: r => if is_space c then lstrip r else l
  | [] => []
  end.

(** [s.strip()] *)
Definition strip (l : list ascii) : list ascii :=
  rev (lstrip (rev (lstrip l))).

(** The first whitespace-separated word of a stripped string:
    [s.split()[0]]. *)
Fixpoint first_word (l : list ascii) : list ascii :=
  match l with
  | c :: r => if is_space c then [] else c :: first_word r
  | [] => []
  end.

(** [s.title()]: a cased letter is upper-cased after an uncased character
    and lower-cased after a cased one. *)
Fixpoint title_from (prev_cased : bool) (l : list ascii) : list ascii :=
  match l with
  | c :: r =>
      let cased := (is_lower c || is_upper c)%bool in
      (if prev_cased then to_lower c else to_upper c) :: title_from cased r
  | [] => []
  end.

Definition title (l : list ascii) : list ascii := title_from false l.

(** ** Numeric literals accepted by [int(str)] and [float(str)] *)

(** After a first digit: [(["_"] digit)*].  Returns the value, the number
    of digits read and the unread rest. *)
Fixpoint digits_more (acc : Z) (n : nat) (l : list ascii)
  : Z * nat * list ascii :=
  match l with
  | c :: r =>
      if is_digit c then digits_more (10 * acc + digit_val c) (S n) r
      else if Ascii.eqb c "_"%char then
        match r with
        | d :: r' =>
            if is_digit d then digits_more (10 * acc + digit_val d) (S n) r'
            else (acc, n, l)
        | [] => (acc, n, l)
        end
      else (acc, n, l)
  | [] => (acc, n, [])
  end.

(** [digitpart ::= digit (["_"] digit)*] *)
Definition digitpart (l : list ascii) : option (Z * nat * list ascii) :=
  match l with
  | c :: r => if is_digit c then Some (digits_more (digit_val c) 1 r) else None
  | [] => None
  end.

(** An optional sign; [true] for a minus. *)
Definition parse_sign (l : list ascii) : bool * list ascii :=
  match l with
  | c :: r =>
      if Ascii.eqb c "-"%char then (true, r)
      else if Ascii.eqb c "+"%char then (false, r)
      else (false, l)
  | [] => (false, [])
  end.

Definition apply_sign (negative : bool) (z : Z) : Z :=
  if negative then - z else z.

(** [int(s)] for a string, base 10; [None] stands for [ValueError]. *)
Definition parse_int (s : string) : option Z :=
  let (negative, r) := parse_sign (strip (chars s)) in
  match digitpart r with
  | Some (v, _, []) => Some (apply_sign negative v)
  | _ => None
  end.

(** [number ::= [digitpart] "." digitpart | digitpart ["."]]: the digits
    read as one integer, and how many of them follow the point. *)
Definition parse_number (l : list ascii) : option (Z * nat * list ascii) :=
  match l with
  | c :: r1 =>
      if Ascii.eqb c "."%char then digitpart r1
      else
        match digitpart l with
        | None => None
        | Some (i, _, rest) =>
            match rest with
            | p :: r2 =>
                if Ascii.eqb p "."%char then
                  match digitpart r2 with
                  | Some (f, n, rest') =>
                      Some (i * 10 ^ Z.of_nat n + f, n, rest')
                  | None => Some (i, O, r2)
                  end
                else Some (i, O, rest)
            | [] => Some (i, O, [])
            end
        end
  | [] => None
  end.

(** [exponent ::= ("e" | "E") [sign] digitpart], optional. *)
Definition parse_exponent (l : list ascii) : option (Z * list ascii) :=
  match l with
  | c :: r =>
      if (Ascii.eqb c "e"%char || Ascii.eqb c "E"%char)%bool then
        let (negative, r') := parse_sign r in
        match digitpart r' with
        | Some (v, _, rest) => Some (apply_sign negative v, rest)
        | None => None
        end
      else Some (0, l)
  | [] => Some (0, [])
  end.

(** The float denoted by [m * 10^e] with the given sign. *)
Definition decimal_float (negative : bool) (m e : Z) : pyfloat :=
  let q := if 0 <=? e then inject_Z (m * 10 ^ e)
           else Qmake m (Z.to_pos (10 ^ (- e))) in
  if Qle_bool (inject_Z float_overflow_bound) q then signed_inf negative
  else PFin (if negative then (- q)%Q else q).

(** [float(s)] for a string; [None] stands for [ValueError]. *)
Definition parse_float (s : string) : option pyfloat :=
  let (negative, r) := parse_sign (strip (chars s)) in
  let word := str (map to_lower r) in
  if (String.eqb word "inf" || String.eqb word "infinity")%bool
  then Some (signed_inf negative)
  else if String.eqb word "nan" then Some PNaN
  else
    match parse_number r with
    | None => None
    | Some (m, fd, rest) =>
        match parse_exponent rest with
        | Some (e, []) => Some (decimal_float negative m (e - Z.of_nat fd))
        | _ => None
        end
    end.

(* ================================================================== *)
(** ** JSON values, as [json.loads] produces them *)

#[local] Set Warnings "-register-all".

Inductive json : Type :=
| JNull
| JBool (b : bool)
| JInt (z : Z)
| JFloat (f : pyfloat)
| JStr (s : string)
| JList (l : list json)
| JObj (kv : list (string * json)).

Definition dict : Type := list (string * json).

(** Python truthiness, as [or], [and], [not] and [if] use it. *)
Definition truthy (v : json) : bool :=
  match v with
  | JNull => false
  | JBool b => b
  | JInt z => negb (z =? 0)
  | JFloat (PFin q) => negb (Qeq_bool q 0)
  | JFloat _ => true
  | JStr s => negb (String.eqb s "")
  | JList l => match l with [] => false | _ => true end
  | JObj kv => match kv with [] => false | _ => true end
  end.

(** [a or b] *)
Definition py_or (a b : json) : json := if truthy a then a else b.

Fixpoint dict_lookup (d : dict) (k : string) : option json :=
  match d with
  | (k', v) :: r => if String.eqb k k' then Some v else dict_lookup r k
  | [] => None
  end.

(** [d.get(k, dflt)] and [d.get(k)] *)
Definition get_or (d : dict) (k : string) (dflt : json) : json :=
  match dict_lookup d k with
  | Some v => v
  | None => dflt
  end.

Definition get (d : dict) (k : string) : json := get_or d k JNull.

(** [float(v)] *)
Definition py_float (v : json) : result pyfloat :=
  match v with
  | JBool b => Ok (if b then pf_one else pf_zero)
  | JInt z => float_of_Z z
  | JFloat f => Ok f
  | JStr s =>
      match parse_float s with
      | Some f => Ok f
      | None => Raise ValueError
      end
  | JNull | JList _ | JObj _ => Raise TypeError
  end.

(** [int(v)] *)
Definition py_int (v : json) : result Z :=
  match v with
  | JBool b => Ok (if b then 1 else 0)
  | JInt z => Ok z
  | JFloat f => int_of_float f
  | JStr s =>
      match parse_int s with
      | Some z => Ok z
      | None => Raise ValueError
      end
  | JNull | JList _ | JObj _ => Raise TypeError
  end.

(** [v.upper()], [v.lower()]: only a string has the method. *)
Definition py_upper (v : json) : result string :=
  match v with
  | JStr s => Ok (upper s)
  | _ => Raise AttributeError
  end.

Definition py_lower (v : json) : result string :=
  match v with
  | JStr s => Ok (lower s)
  | _ => Raise AttributeError
  end.

(** The elements a [for] loop over [v] visits: the items of a list, the
    characters of a string, the keys of a dict. *)
Definition py_iter (v : json) : result (list json) :=
  match v with
  | JList l => Ok l
  | JStr s => Ok (map (fun c => JStr (String c EmptyString)) (chars s))
  | JObj kv => Ok (map (fun p => JStr (fst p)) kv)
  | JNull | JBool _ | JInt _ | JFloat _ => Raise TypeError
  end.

(* ================================================================== *)
(** ** The catalogue

    A field read with [.get] is an [option], [None] when the key is absent;
    a key that is present carries a value of the type the code expects.
    Only the fields the engine's decisions read are kept; the free-text
    fields feed the narrative lists of a card and nothing else. *)

Record Country : Type := {
  c_code : string;
  c_name : option string;
  allow_inter_english : option bool
}.

Record University : Type := {
  uni_name : option string;
  visa_risk : option string
}.

Record Course : Type := {
  crs_id : option string;
  subject_cluster : option string;
  min_cgpa_india : option Q;
  max_backlogs : option Q;
  accepts_backlog_history : option bool;
  tuition_fee_lakhs : option Q;
  estimated_living_lakhs : option Q;
  extra_costs_lakhs : option Q;
  min_ielts_overall : option Q;
  min_pte_overall : option Q;
  min_duolingo : option Q;
  inter_english_ok : option bool;
  math_required : option bool;
  work_exp_required_years : option Q;
  intakes : list string
}.

(** One entry of [DB["flat_courses"]]. *)
Record Merged : Type := {
  m_country_code : string;
  m_country : Country;
  m_university : University;
  m_course : Course
}.

(** The module-level tables [DB["countries"]] and [DB["flat_courses"]]. *)
Record Catalog : Type := {
  countries : list Country;
  flat_courses : list Merged
}.

(** [COUNTRY_BY_CODE.get(c)]: the table is a dict comprehension over
    [DB["countries"]], so the last country with a code is the one kept. *)
Definition COUNTRY_BY_CODE (db : Catalog) (c : string) : option Country :=
  find (fun k => String.eqb (c_code k) c) (rev (countries db)).

(** [x.get(k, d)] on a typed field. *)
Definition dflt {A : Type} (d : A) (o : option A) : A :=
  match o with
  | Some a => a
  | None => d
  end.

(** [x.get(k, 0) or 0] on a numeric field. *)
Definition or_zero (o : option Q) : Q :=
  match o with
  | Some q => if Qeq_bool q 0 then 0%Q else q
  | None => 0%Q
  end.

(* ================================================================== *)
(** ** The student profile *)

Record Profile : Type := {
  p_name : json;
  p_country_code : string;
  p_cgpa : pyfloat;
  p_backlogs_count : Z;
  p_english_proof_type : string;
  p_english_score : pyfloat;
  p_budget_lakhs : pyfloat;
  p_work_ex_years : pyfloat;
  p_non_math_background : json;
  p_target_intake : json;
  p_intake_month : string
}.

(* ================================================================== *)
(** ** Helper functions *)

(** [month_from_intake_string] *)
Definition month_from_intake_string (intake_str : json) : result string :=
  if negb (truthy intake_str) then Ok ""
  else
    match intake_str with
    | JStr s =>
        let stripped := strip (chars s) in
        match stripped with
        | [] => Ok ""
        | _ => Ok (str (title (firstn 3 (first_word stripped))))
        end
    | _ => Raise AttributeError
    end.

Inductive level : Type :=
| safe
| moderate
| ambitious
| reject
| unknown.

Definition level_eqb (a b : level) : bool :=
  match a, b with
  | safe, safe | moderate, moderate | ambitious, ambitious
  | reject, reject | unknown, unknown => true
  | _, _ => false
  end.

(** [classify_level] *)
Definition classify_level (cgpa : pyfloat) (min_cgpa : option pyfloat)
  : level :=
  match min_cgpa with
  | None => unknown
  | Some m =>
      let diff := pf_sub cgpa m in
      if pf_ge diff (PFin 1) then safe
      else if pf_ge diff (PFin 0) then moderate
      else if pf_ge diff (PFin (- (1 # 2))) then ambitious
      else reject
  end.

Inductive budget_label : Type :=
| budget_unknown
| very_comfortable
| tight_but_possible
| over_budget.

(** [budget_fit_label] *)
Definition budget_fit_label (total_cost budget : pyfloat) : budget_label :=
  if pf_le budget (PFin 0) then budget_unknown
  else if pf_le total_cost (pf_mul (PFin (8 # 10)) budget)
       then very_comfortable
  else if pf_le total_cost budget then tight_but_possible
  else over_budget.

Definition one_of (s : string) (l : list string) : bool :=
  existsb (String.eqb s) l.

(** [english_ok_for_course]; the result is [(english_ok, english_gap)]. *)
Definition english_ok_for_course (db : Catalog) (course : Course)
    (profile : Profile) : bool * bool :=
  let proof := p_english_proof_type profile in
  let score := p_english_score profile in
  let min_ielts := min_ielts_overall course in
  let min_pte := min_pte_overall course in
  let min_duo := min_duolingo course in
  let inter_ok := dflt false (inter_english_ok course) in
  if one_of proof ["none"; ""] then (false, true)
  else if String.eqb proof "ielts" then
    match min_ielts with
    | None => (true, false)
    | Some m => (pf_ge score (PFin m), pf_lt score (PFin m))
    end
  else if String.eqb proof "pte" then
    match min_pte with
    | None => (true, false)
    | Some m => (pf_ge score (PFin m), pf_lt score (PFin m))
    end
  else if String.eqb proof "duolingo" then
    match min_duo with
    | None => (true, false)
    | Some m => (pf_ge score (PFin m), pf_lt score (PFin m))
    end
  else if one_of proof ["inter"; "medium"] then
    if (inter_ok &&
        match COUNTRY_BY_CODE db (p_country_code profile) with
        | Some c => dflt false (allow_inter_english c)
        | None => false
        end)%bool
    then (true, false)
    else (false, true)
  else (false, true).

Record RiskFlags : Type := {
  budget_risk : bool;
  english_gap : bool;
  cgpa_gap : bool;
  math_risk : bool;
  workex_gap : bool;
  visa_risk_high : bool
}.

Definition opt_string_eqb (o : option string) (s : string) : bool :=
  match o with
  | Some t => String.eqb t s
  | None => false
  end.

(** [compute_risk_flags] *)
Definition compute_risk_flags (merged : Merged) (profile : Profile)
    (level_band : level) (gap : bool) (label : budget_label) : RiskFlags :=
  let course := m_course merged in
  let uni := m_university merged in
  {| budget_risk := match label with over_budget => true | _ => false end;
     english_gap := gap;
     cgpa_gap := level_eqb level_band ambitious;
     math_risk :=
       (dflt false (math_required course)
        && truthy (p_non_math_background profile))%bool;
     workex_gap :=
       pf_gt (PFin (dflt 0%Q (work_exp_required_years course)))
             (p_work_ex_years profile);
     visa_risk_high := opt_string_eqb (visa_risk uni) "high" |}.

(** The recommendation card: the fields of the returned dict that carry
    a decision. *)
Record Card : Type := {
  course_id : option string;
  country_code : string;
  level_band : level;
  tuition : Q;
  living : Q;
  extra : Q;
  total_first_year_cost_lakhs : Q;
  card_budget_label : budget_label;
  english_ok_now : bool;
  risk_flags : RiskFlags
}.

(** [build_course_response]; [None] is the Python [None] of a dropped
    candidate. *)
Definition build_course_response (db : Catalog) (merged : Merged)
    (profile : Profile) : option Card :=
  let country := m_country merged in
  let course := m_course merged in
  let cgpa := p_cgpa profile in
  let min_cgpa := or_zero (min_cgpa_india course) in
  let band := classify_level cgpa (Some (PFin min_cgpa)) in
  if level_eqb band reject then None
  else
    let tuition := or_zero (tuition_fee_lakhs course) in
    let living := or_zero (estimated_living_lakhs course) in
    let extra := or_zero (extra_costs_lakhs course) in
    let total := (tuition + living + extra)%Q in
    let budget := p_budget_lakhs profile in
    let label := budget_fit_label (PFin total) budget in
    let (english_ok, gap) := english_ok_for_course db course profile in
    let risks := compute_risk_flags merged profile band gap label in
    Some {| course_id := crs_id course;
            country_code := c_code country;
            level_band := band;
            tuition := tuition;
            living := living;
            extra := extra;
            total_first_year_cost_lakhs := total;
            card_budget_label := label;
            english_ok_now := english_ok;
            risk_flags := risks |}.

(* ================================================================== *)
(** ** The [/recommend] handler *)

Definition nonempty {A : Type} (l : list A) : bool :=
  match l with
  | [] => false
  | _ => true
  end.

(** [cluster in subject_clusters]: a catalogue string equals a request
    element only when that element is the same string. *)
Definition cluster_in (cluster : string) (subject_clusters : list json)
  : bool :=
  existsb (fun j => match j with
                    | JStr s => String.eqb cluster s
                    | _ => false
                    end) subject_clusters.

(** The body of the hard-filter loop: [true] when [merged] is appended to
    [matches], [false] at each [continue]. *)
Definition eligible (country_code : string) (subject_clusters : list json)
    (backlogs : Z) (cgpa : pyfloat) (merged : Merged) : bool :=
  if negb (String.eqb (m_country_code merged) country_code) then false
  else
    let course := m_course merged in
    let cluster := dflt "" (subject_cluster course) in
    if (nonempty subject_clusters
        && negb (cluster_in cluster subject_clusters))%bool then false
    else if match max_backlogs course with
            | Some mb => Qltb mb (inject_Z backlogs)
            | None => false
            end then false
    else if (negb (dflt true (accepts_backlog_history course))
             && (0 <? backlogs))%bool then false
    else
      let min_cgpa := or_zero (min_cgpa_india course) in
      let band := classify_level cgpa (Some (PFin min_cgpa)) in
      if level_eqb band reject then false
      else true.

(** The transform loop: a card for every match that yields one. *)
Fixpoint build_items (db : Catalog) (profile : Profile)
    (matches : list Merged) : list Card :=
  match matches with
  | merged :: rest =>
      match build_course_response db merged profile with
      | Some item => item :: build_items db profile rest
      | None => build_items db profile rest
      end
  | [] => []
  end.

Definition is_band (b : level) (c : Card) : bool :=
  level_eqb (level_band c) b.

(** [level_order.get(band, 3)] *)
Definition level_order (b : level) : Z :=
  match b with
  | safe => 0
  | moderate => 1
  | ambitious => 2
  | unknown => 3
  | reject => 3
  end.

Definition sort_key (c : Card) : Z * Q :=
  (level_order (level_band c), total_first_year_cost_lakhs c).

(** [a < b] on the key tuples: the first component that differs decides. *)
Definition key_lt (a b : Z * Q) : bool :=
  if negb (fst a =? fst b) then fst a <? fst b
  else if negb (Qeq_bool (snd a) (snd b)) then Qltb (snd a) (snd b)
  else false.

(** [list.sort(key=...)] is stable and compares keys with [<] only.  The
    keys are totally ordered, so the stable sort has one possible result,
    which insertion from the right computes: a card passes the cards whose
    key is smaller and stops before the first other one. *)
Fixpoint insert_card (x : Card) (l : list Card) : list Card :=
  match l with
  | y :: r =>
      if key_lt (sort_key y) (sort_key x) then y :: insert_card x r
      else x :: l
  | [] => [x]
  end.

Definition sort_cards (l : list Card) : list Card :=
  fold_right insert_card [] l.

(** [l[:n]] *)
Definition slice_to {A : Type} (n : Z) (l : list A) : list A :=
  if n <? 0 then firstn (List.length l - Z.to_nat (- n)) l
  else firstn (Z.to_nat n) l.

(** [max(1, min(int(data.get("requested_count", 5) or 5), 15))] *)
Definition requested_count_of (data : dict) : result Z :=
  n <- py_int (py_or (get_or data "requested_count" (JInt 5)) (JInt 5)) ;;
  Ok (Z.max 1 (Z.min n 15)).

(** The ranking block of the handler: remember the ambitious cards, sort,
    truncate, and add one ambitious card when the top has none. *)
Definition rank_and_select (course_items : list Card) (requested_count : Z)
  : list Card :=
  let ambitious_items := filter (is_band ambitious) course_items in
  let sorted := sort_cards course_items in
  let top := slice_to requested_count sorted in
  if (negb (existsb (is_band ambitious) top)
      && nonempty ambitious_items)%bool
  then
    match ambitious_items with
    | first :: _ => top ++ [first]
    | [] => top
    end
  else top.

Definition count_band (b : level) (l : list Card) : nat :=
  List.length (filter (is_band b) l).

Record Stats : Type := {
  total_matches_before_limit : nat;
  total_shown : nat;
  safe_count : nat;
  moderate_count : nat;
  ambitious_count : nat
}.

(** The response dict, without the time stamp, the country summary and the
    advice texts (none of them feeds back into the fields kept here). *)
Record Response : Type := {
  student_profile : Profile;
  stats : Stats;
  recommendations : list Card
}.

Inductive http_response : Type :=
| Json200 (r : Response)
| Json400 (error : string).

(** [request.get_json(force=True) or {}], used through [.get] only. *)
Definition request_data (body : json) : result dict :=
  match body with
  | JObj kv => Ok kv
  | other => if truthy other then Raise AttributeError else Ok []
  end.

(** The five guarded conversions. *)
Definition float_field (data : dict) (k : string) : result pyfloat :=
  except_ValueError (py_float (get_or data k (JInt 0))) (PFin 0).

Definition int_field (data : dict) (k : string) : result Z :=
  except_ValueError (py_int (get_or data k (JInt 0))) 0.

Definition matches_of (db : Catalog) (country_code : string)
    (subject_clusters : list json) (backlogs : Z) (cgpa : pyfloat)
  : list Merged :=
  filter (eligible country_code subject_clusters backlogs cgpa)
         (flat_courses db).

(** [recommend] *)
Definition recommend (db : Catalog) (body : json) : result http_response :=
  data <- request_data body ;;
  country_code <- py_upper (py_or (get data "country_code") (JStr "UK")) ;;
  match COUNTRY_BY_CODE db country_code with
  | None => Ok (Json400 "Invalid or unsupported country_code")
  | Some country =>
      cgpa <- float_field data "cgpa" ;;
      budget_lakhs <- float_field data "budget_lakhs" ;;
      backlogs <- int_field data "backlogs_count" ;;
      work_ex_years <- float_field data "work_ex_years" ;;
      english_score <- float_field data "english_score" ;;
      clusters <- py_iter (py_or (get data "subject_clusters") (JList [])) ;;
      let subject_clusters := filter truthy clusters in
      let target_intake := get_or data "target_intake" (JStr "") in
      intake_month <- month_from_intake_string target_intake ;;
      proof <- py_lower (py_or (get data "english_proof_type") (JStr "")) ;;
      let profile :=
        {| p_name := py_or (get data "name") (JStr "Student");
           p_country_code := country_code;
           p_cgpa := cgpa;
           p_backlogs_count := backlogs;
           p_english_proof_type := proof;
           p_english_score := english_score;
           p_budget_lakhs := budget_lakhs;
           p_work_ex_years := work_ex_years;
           p_non_math_background :=
             get_or data "non_math_background" (JBool false);
           p_target_intake := target_intake;
           p_intake_month := intake_month |} in
      let matches :=
        matches_of db country_code subject_clusters backlogs cgpa in
      let course_items := build_items db profile matches in
      requested_count <- requested_count_of data ;;
      let shown := rank_and_select course_items requested_count in
      Ok (Json200
            {| student_profile := profile;
               stats :=
                 {| total_matches_before_limit := List.length matches;
                    total_shown := List.length shown;
                    safe_count := count_band safe shown;
                    moderate_count := count_band moderate shown;
                    ambitious_count := count_band ambitious shown |};
               recommendations := shown |})
  end.

(** The card pool before ranking, as the handler builds it for a profile
    and the cleaned list of requested subject clusters. *)
Definition candidate_pool (db : Catalog) (profile : Profile)
    (subject_clusters : list json) : list Card :=
  build_items db profile
    (matches_of db (p_country_code profile) subject_clusters
       (p_backlogs_count profile) (p_cgpa profile)).

(** ** Vocabulary of the statements *)

(** Ascending order of the sort keys: by band rank, then by cost. *)
Definition key_le (a b : Z * Q) : Prop :=
  fst a < fst b \/ (fst a = fst b /\ (snd a <= snd b)%Q).

Definition ordered (a b : Card) : Prop := key_le (sort_key a) (sort_key b).

(** The band both call sites compute: the course minimum goes through the
    same [or 0] and meets the same CGPA. *)
Definition pipeline_band (cgpa : pyfloat) (course : Course) : level :=
  classify_level cgpa (Some (PFin (or_zero (min_cgpa_india course)))).

(** The cards whose sort key is [k]. *)
Definition has_key (k : Z * Q) (c : Card) : bool :=
  ((fst (sort_key c) =? fst k) && Qeq_bool (snd (sort_key c)) (snd k))%bool.

(** The bands a card can carry. *)
Definition shown_band (c : Card) : Prop :=
  level_band c = safe \/ level_band c = moderate \/ level_band c = ambitious.

(* ================================================================== *)
(** ** A small catalogue and requests, for the concrete checks *)

Definition uk : Country :=
  {| c_code := "UK"; c_name := Some "United Kingdom";
     allow_inter_english := Some true |}.

Definition demo_uni : University :=
  {| uni_name := Some "Demo University"; visa_risk := Some "low" |}.

Definition demo_course (key cluster : string) (min_cgpa fee : Q) : Course :=
  {| crs_id := Some key;
     subject_cluster := Some cluster;
     min_cgpa_india := Some min_cgpa;
     max_backlogs := None;
     accepts_backlog_history := None;
     tuition_fee_lakhs := Some fee;
     estimated_living_lakhs := Some 5%Q;
     extra_costs_lakhs := None;
     min_ielts_overall := Some 6%Q;
     min_pte_overall := None;
     min_duolingo := None;
     inter_english_ok := Some true;
     math_required := None;
     work_exp_required_years := None;
     intakes := ["Sep"] |}.

Definition demo_merged (key cluster : string) (min_cgpa fee : Q) : Merged :=
  {| m_country_code := "UK"; m_country := uk; m_university := demo_uni;
     m_course := demo_course key cluster min_cgpa fee |}.

(** For a CGPA of 8.2: an ambitious, a safe, a moderate and a rejected
    course, then a second and cheaper ambitious one. *)
Definition demo_db : Catalog :=
  {| countries := [uk];
     flat_courses :=
       [ demo_merged "ai" "artificial_intelligence" 8.5 10;
         demo_merged "ds" "data_science" 7 20;
         demo_merged "mba" "mba" 8 25;
         demo_merged "cs" "computer_science" 9.5 15;
         demo_merged "ml" "artificial_intelligence" 8.6 2 ] |}.

Definition demo_data (requested_count : json) : dict :=
  [ ("country_code", JStr "uk");
    ("cgpa", JFloat (PFin 8.2));
    ("english_proof_type", JStr "IELTS");
    ("english_score", JFloat (PFin 6.5));
    ("budget_lakhs", JInt 30);
    ("requested_count", requested_count) ].

Definition demo_request (requested_count : json) : json :=
  JObj (demo_data requested_count).

Definition demo_profile (proof : string) (score : Q) : Profile :=
  {| p_name := JStr "Student";
     p_country_code := "UK";
     p_cgpa := PFin 8.2;
     p_backlogs_count := 0;
     p_english_proof_type := proof;
     p_english_score := PFin score;
     p_budget_lakhs := PFin 30;
     p_work_ex_years := PFin 0;
     p_non_math_background := JBool false;
     p_target_intake := JStr "";
     p_intake_month := "" |}.

(** The course ids and bands of the cards of a response. *)
Definition shown_ids (r : result http_response)
  : option (list (option string * level)) :=
  match r with
  | Ok (Json200 resp) =>
      Some (map (fun c => (course_id c, level_band c)) (recommendations resp))
  | _ => None
  end.

(* ================================================================== *)
(** ** The catalogue as loaded: nested records with their text fields *)

Record CourseDoc : Type := {
  cd_fields : Course;
  cd_name : option string;
  course_highlights : list string;
  course_cautions : list string;
  with_placement : option bool;
  is_flagship : option bool
}.

Record UniversityDoc : Type := {
  ud_fields : University;
  highlights : list string;
  cautions : list string;
  tier_band : option string;
  ud_courses : list CourseDoc
}.

Record CountryDoc : Type := {
  cn_fields : Country;
  cn_universities : list UniversityDoc
}.

(** The flattening loops of [load_db]: one entry per course, in the order
    of the countries, their universities and their courses. *)
Definition flatten_country (country : CountryDoc) : list Merged :=
  flat_map
    (fun uni =>
       map (fun course =>
              {| m_country_code := c_code (cn_fields country);
                 m_country := cn_fields country;
                 m_university := ud_fields uni;
                 m_course := cd_fields course |})
           (ud_courses uni))
    (cn_universities country).

Definition load_flat_courses (docs : list CountryDoc) : list Merged :=
  flat_map flatten_country docs.

(** The tables [load_db] returns, for a list of country records. *)
Definition catalog_of (docs : list CountryDoc) : Catalog :=
  {| countries := map cn_fields docs;
     flat_courses := load_flat_courses docs |}.

(** The file loop of [load_db] works on the values [json.load] returns.
    In the list of data files, [None] is a file that does not exist and
    [Some data] a file that exists, was opened and parsed to [data]; a
    file that cannot be opened or parsed makes [load_db] raise at that
    point and is no input of this model. *)

(** The countries one data file contributes: the items of its "countries"
    entry, or the file itself when it is a single country, or nothing. *)
Definition countries_of_file (data : json) : result (list json) :=
  match data with
  | JObj kv =>
      match dict_lookup kv "countries" with
      | Some v => py_iter v
      | None =>
          if (truthy (get kv "code") && truthy (get kv "universities"))%bool
          then Ok [data]
          else Ok []
      end
  | _ => Ok []
  end.

(** The file loop of [load_db]. *)
Fixpoint collect_countries (files : list (option json))
  : result (list json) :=
  match files with
  | None :: rest => collect_countries rest
  | Some data :: rest =>
      cs <- countries_of_file data ;;
      more <- collect_countries rest ;;
      Ok (cs ++ more)
  | [] => Ok []
  end.

(** The country list of [load_db], with its guard. *)
Definition load_countries (files : list (option json))
  : result (list json) :=
  cs <- collect_countries files ;;
  if nonempty cs then Ok cs else Raise ValueError.

(** The results of [f] on the items of a list, in order, or the first
    exception: a [for] loop that appends one result per item. *)
Fixpoint map_result {A B : Type} (f : A -> result B) (l : list A)
  : result (list B) :=
  match l with
  | x :: rest =>
      y <- f x ;;
      ys <- map_result f rest ;;
      Ok (y :: ys)
  | [] => Ok []
  end.

(** One entry of [flat_courses], as the dict [load_db] builds. *)
Record MergedJson : Type := {
  mj_country_code : json;
  mj_country_name : json;
  mj_country : json;
  mj_university_name : json;
  mj_university : json;
  mj_city : json;
  mj_course : json;
  mj_course_id : json
}.

(** The body of the innermost loop: [course.get] needs a dict. *)
Definition merged_of_course (country : json) (ckv : dict) (uni : json)
    (ukv : dict) (course : json) : result MergedJson :=
  match course with
  | JObj kv =>
      Ok {| mj_country_code := get ckv "code";
            mj_country_name := get ckv "name";
            mj_country := country;
            mj_university_name :=
              get_or ukv "name" (JStr "Unknown University");
            mj_university := uni;
            mj_city := get_or ukv "city" (JStr "");
            mj_course := course;
            mj_course_id := get kv "id" |}
  | _ => Raise AttributeError
  end.

(** The loop over the courses of one university. *)
Definition merged_of_university (country : json) (ckv : dict) (uni : json)
  : result (list MergedJson) :=
  match uni with
  | JObj ukv =>
      courses <- py_iter (get_or ukv "courses" (JList [])) ;;
      map_result (merged_of_course country ckv uni ukv) courses
  | _ => Raise AttributeError
  end.

(** The loop over the universities of one country. *)
Definition merged_of_country (country : json) : result (list MergedJson) :=
  match country with
  | JObj ckv =>
      unis <- py_iter (get_or ckv "universities" (JList [])) ;;
      per_uni <- map_result (merged_of_university country ckv) unis ;;
      Ok (List.concat per_uni)
  | _ => Raise AttributeError
  end.

(** The dict [load_db] returns ("raw" repeats the country list). *)
Record LoadedDB : Type := {
  ld_countries : list json;
  ld_flat_courses : list MergedJson
}.

(** [load_db], from the parsed data files on. *)
Definition load_db (files : list (option json)) : result LoadedDB :=
  cs <- load_countries files ;;
  per_country <- map_result merged_of_country cs ;;
  Ok {| ld_countries := cs; ld_flat_courses := List.concat per_country |}.

(* ================================================================== *)
(** ** The narrative helpers *)

(** [build_tier_label] *)
Definition build_tier_label (band : option string) : string :=
  match band with
  | Some b =>
      if String.eqb b "russell_group_top"
      then "Russell Group / Top UK research university"
      else if String.eqb b "public_research"
      then "Public research university"
      else if String.eqb b "teaching_focused"
      then "Teaching-focused / modern university"
      else if String.eqb b "general_public"
      then "General public university"
      else if String.eqb b "private"
      then "Private / specialist institution"
      else "General university"
  | None => "General university"
  end.

(** [build_why_course] *)
Definition build_why_course (course : CourseDoc) : list string :=
  firstn 3 (course_highlights course)
  ++ (if dflt false (with_placement course)
      then ["Includes placement / internship component (subject to availability)."]
      else [])
  ++ (if dflt false (is_flagship course)
      then ["Flagship program of the university in this subject area."]
      else []).

(** [build_pros], on the university and the course of the merged entry. *)
Definition build_pros (uni : UniversityDoc) (course : CourseDoc)
  : list string :=
  firstn 8 (highlights uni ++ course_highlights course).

Definition no_red_flags : string :=
  "No major public red flags, but always cross-check recent reviews, outcomes and visa updates.".

(** [build_cons] *)
Definition build_cons (uni : UniversityDoc) (course : CourseDoc)
  : list string :=
  let cons := cautions uni ++ course_cautions course in
  firstn 8 (match cons with
            | [] => [no_red_flags]
            | _ => cons
            end).

(* ================================================================== *)
(** ** The overall advice *)

Record GlobalAdvice : Type := {
  headline : string;
  english_advice : string;
  budget_advice : string;
  profile_gaps : list string;
  next_steps : list string
}.

Definition is_over_budget (c : Card) : bool :=
  match card_budget_label c with
  | over_budget => true
  | _ => false
  end.

Definition headline_none : string :=
  "No strong matches found in this country with current filters.".
Definition headline_safe : string :=
  "You have several SAFE options – shortlist 2–3 safe and keep 1–2 ambitious as backup.".
Definition headline_stretch : string :=
  "Most options are MODERATE or AMBITIOUS – you need strong projects, SOP and LORs.".
Definition step_improve : string :=
  "Try improving IELTS/PTE score, increasing budget, or exploring more teaching-focused universities.".
Definition step_elsewhere : string :=
  "You can also try a different country or slightly different course combination (e.g., general CS instead of AI-only).".
Definition english_take_test : string :=
  "Taking IELTS / PTE / Duolingo will open many more universities and make visa stronger, even if some accept Inter/Medium English.".
Definition english_fine : string :=
  "Your chosen English test looks okay; just ensure you meet each course's minimum sub-scores.".
Definition budget_over : string :=
  "Some options are above your current budget. Plan for extra funds, education loans or scholarships, or target lower-cost cities/universities.".
Definition budget_fine : string :=
  "Your budget seems reasonable for the recommended universities.".
Definition gap_maths : string :=
  "Strengthen your maths and statistics basics – especially for Data Science / AI / Analytics programs.".
Definition gap_workex : string :=
  "More relevant full-time work experience will make your MBA / Project Management profile much stronger.".
Definition step_uk : string :=
  "For the UK, track university application deadlines and CAS dates and always confirm latest UKVI visa rules.".
Definition step_us : string :=
  "For the US, check if GRE/GMAT is recommended for your course and plan applications 8–12 months before intake.".
Definition step_documents : string :=
  "Prepare a strong SOP, updated CV, transcripts, and at least 1–2 solid LORs before you start applying.".

(** [global_advice_from_results] *)
Definition global_advice_from_results (country : Country) (profile : Profile)
    (course_items : list Card) : GlobalAdvice :=
  match course_items with
  | [] =>
      {| headline := headline_none;
         english_advice := "";
         budget_advice := "";
         profile_gaps := [];
         next_steps := [step_improve; step_elsewhere] |}
  | _ =>
      let safe_n := count_band safe course_items in
      let mod_n := count_band moderate course_items in
      let amb_n := count_band ambitious course_items in
      let needs_test :=
        one_of (p_english_proof_type profile) ["none"; "inter"; "medium"] in
      let over_n := List.length (filter is_over_budget course_items) in
      {| headline :=
           if (3 <=? safe_n)%nat then headline_safe
           else if ((0 <? mod_n)%nat || (0 <? amb_n)%nat)%bool
                then headline_stretch
           else "";
         english_advice :=
           if needs_test then english_take_test else english_fine;
         budget_advice :=
           if (0 <? over_n)%nat then budget_over else budget_fine;
         profile_gaps :=
           (if existsb (fun c => math_risk (risk_flags c)) course_items
            then [gap_maths] else [])
           ++ (if existsb (fun c => workex_gap (risk_flags c)) course_items
               then [gap_workex] else []);
         next_steps :=
           (if opt_string_eqb (c_name country) "United Kingdom"
            then [step_uk]
            else if opt_string_eqb (c_name country) "United States"
                 then [step_us]
            else [])
           ++ [step_documents] |}
  end.

(* ================================================================== *)
(** ** The [/courses/<country_code>] route *)

Record ClusterInfo : Type := {
  ci_subject_cluster : string;
  ci_display_name : string;
  ci_example_course : option string;
  ci_count : nat
}.

(** [cluster.replace("_", " ").title()] *)
Definition display_name_of (cluster : string) : string :=
  str (title (map (fun c => if Ascii.eqb c "_"%char then " "%char else c)
                  (chars cluster))).

(** One pass of the inner loop on the insertion-ordered dict [clusters]:
    a new cluster is added at the end with count 0, then the count of the
    course's cluster goes up by one. *)
Fixpoint count_course (cluster : string) (name : option string)
    (clusters : list ClusterInfo) : list ClusterInfo :=
  match clusters with
  | info :: rest =>
      if String.eqb (ci_subject_cluster info) cluster
      then {| ci_subject_cluster := ci_subject_cluster info;
              ci_display_name := ci_display_name info;
              ci_example_course := ci_example_course info;
              ci_count := S (ci_count info) |} :: rest
      else info :: count_course cluster name rest
  | [] =>
      [ {| ci_subject_cluster := cluster;
           ci_display_name := display_name_of cluster;
           ci_example_course := name;
           ci_count := 1 |} ]
  end.

(** The courses of a country, university by university. *)
Definition courses_of_country (country : CountryDoc) : list CourseDoc :=
  flat_map ud_courses (cn_universities country).

Definition cluster_of (course : CourseDoc) : string :=
  dflt "other" (subject_cluster (cd_fields course)).

Definition count_clusters (courses : list CourseDoc) : list ClusterInfo :=
  fold_left (fun clusters course =>
               count_course (cluster_of course) (cd_name course) clusters)
            courses [].

Inductive courses_response : Type :=
| Courses200 (clusters : list ClusterInfo)
| Courses404 (error : string).

(** [COUNTRY_BY_CODE.get(c)] on the loaded records. *)
Definition country_doc_by_code (docs : list CountryDoc) (c : string)
  : option CountryDoc :=
  find (fun k => String.eqb (c_code (cn_fields k)) c) (rev docs).

(** [get_courses] *)
Definition get_courses (docs : list CountryDoc) (country_code : string)
  : courses_response :=
  match country_doc_by_code docs (upper country_code) with
  | None => Courses404 "Country not found"
  | Some country => Courses200 (count_clusters (courses_of_country country))
  end.

(** ** A loaded catalogue for the concrete checks *)

Definition demo_course_doc (key cluster : string) (min_cgpa fee : Q)
  : CourseDoc :=
  {| cd_fields := demo_course key cluster min_cgpa fee;
     cd_name := Some key;
     course_highlights := ["Industry projects"];
     course_cautions := [];
     with_placement := Some true;
     is_flagship := None |}.

Definition demo_uni_doc : UniversityDoc :=
  {| ud_fields := demo_uni;
     highlights := ["Strong research"; "City campus"];
     cautions := [];
     tier_band := Some "public_research";
     ud_courses :=
       [ demo_course_doc "ai" "artificial_intelligence" 8.5 10;
         demo_course_doc "ds" "data_science" 7 20;
         demo_course_doc "mba" "mba" 8 25;
         demo_course_doc "cs" "computer_science" 9.5 15;
         demo_course_doc "ml" "artificial_intelligence" 8.6 2 ] |}.

Definition demo_docs : list CountryDoc :=
  [ {| cn_fields := uk; cn_universities := [demo_uni_doc] |} ].

(** ** Proof automation for the comparisons *)

(** Replace every boolean comparison of rationals, in the goal and in the
    hypotheses, by the two cases of its outcome as an order fact. *)
Ltac q_bool_fact E :=
  match type of E with
  | Qle_bool _ _ = true => apply Qle_bool_iff in E
  | Qle_bool _ _ = false =>
      apply not_true_iff_false in E; rewrite Qle_bool_iff in E;
      apply Qnot_le_lt in E
  | Qeq_bool _ _ = true => apply Qeq_bool_iff in E
  | Qeq_bool _ _ = false => apply Qeq_bool_neq in E
  end.

Ltac q_cases :=
  unfold Qltb in *;
  repeat match goal with
    | |- context [Qle_bool ?a ?b] =>
        let E := fresh "E" in destruct (Qle_bool a b) eqn:E; q_bool_fact E
    | H : context [Qle_bool ?a ?b] |- _ =>
        let E := fresh "E" in destruct (Qle_bool a b) eqn:E; q_bool_fact E
    | |- context [Qeq_bool ?a ?b] =>
        let E := fresh "E" in destruct (Qeq_bool a b) eqn:E; q_bool_fact E
    | H : context [Qeq_bool ?a ?b] |- _ =>
        let E := fresh "E" in destruct (Qeq_bool a b) eqn:E; q_bool_fact E
    end.

Ltac q_solve :=
  simpl in *; q_cases; simpl in *;
  try reflexivity; try discriminate; try contradiction;
  try (exfalso; lra); try lra.

(* ================================================================== *)
(** * Properties *)

(** ** Comparisons on rationals and floats *)

Lemma Qeq_bool_true (x y : Q) : Qeq_bool x y = true -> (x == y)%Q.
Proof. apply Qeq_bool_iff. Qed.

Lemma Qltb_true (x y : Q) : Qltb x y = true <-> (x < y)%Q.
Proof.
  split; intros H.
  - q_solve.
  - q_solve.
Qed.

Lemma or_zero_eq (o : option Q) : (or_zero o == dflt 0 o)%Q.
Proof.
  destruct o as [q|]; simpl; [|reflexivity].
  destruct (Qeq_bool q 0) eqn:E; [|reflexivity].
  apply Qeq_bool_true in E. symmetry. exact E.
Qed.

(** ** The academic classifier *)

Lemma classify_level_same (c1 m1 c2 m2 : pyfloat) :
  pf_same (pf_sub c1 m1) (pf_sub c2 m2) ->
  classify_level c1 (Some m1) = classify_level c2 (Some m2).
Proof.
  unfold classify_level, pf_ge.
  destruct (pf_sub c1 m1) as [d1| | |], (pf_sub c2 m2) as [d2| | |];
    simpl; intros H; try contradiction; try reflexivity.
  q_solve.
Qed.

(** C4: [classify_level] gives "unknown" for a missing minimum; otherwise
    it depends on [diff = cgpa - min_cgpa] alone, with diff >= 1.0 safe,
    0.0 <= diff < 1.0 moderate, -0.5 <= diff < 0.0 ambitious and
    diff < -0.5 reject; the lower edge of a band belongs to it. *)
Theorem classify_level_bands (cgpa : pyfloat) :
  classify_level cgpa None = unknown /\
  forall m : pyfloat,
    let diff := pf_sub cgpa m in
    (pf_ge diff (PFin 1) = true -> classify_level cgpa (Some m) = safe) /\
    (pf_ge diff (PFin 0) = true -> pf_lt diff (PFin 1) = true ->
       classify_level cgpa (Some m) = moderate) /\
    (pf_ge diff (PFin (- (1 # 2))) = true -> pf_lt diff (PFin 0) = true ->
       classify_level cgpa (Some m) = ambitious) /\
    (pf_lt diff (PFin (- (1 # 2))) = true ->
       classify_level cgpa (Some m) = reject) /\
    (pf_eqb diff (PFin 1) = true -> classify_level cgpa (Some m) = safe) /\
    (pf_eqb diff (PFin 0) = true ->
       classify_level cgpa (Some m) = moderate) /\
    (pf_eqb diff (PFin (- (1 # 2))) = true ->
       classify_level cgpa (Some m) = ambitious) /\
    (forall cgpa' m' : pyfloat,
       pf_same diff (pf_sub cgpa' m') ->
       classify_level cgpa (Some m) = classify_level cgpa' (Some m')).
Proof.
  split; [reflexivity|].
  intros m diff.
  repeat split; try (intros; apply classify_level_same; assumption);
    subst diff; unfold classify_level, pf_ge;
    destruct (pf_sub cgpa m) as [d| | |]; intros; q_solve.
Qed.

Lemma classify_level_bands_witness :
  classify_level (PFin 8) (Some (PFin 7)) = safe /\
  classify_level (PFin 7.5) (Some (PFin 7)) = moderate /\
  classify_level (PFin 7) (Some (PFin 7)) = moderate /\
  classify_level (PFin 6.5) (Some (PFin 7)) = ambitious /\
  classify_level (PFin 6.4) (Some (PFin 7)) = reject.
Proof.
  destruct (proj2 (classify_level_bands (PFin 8)) (PFin 7))
    as (S8 & _).
  destruct (proj2 (classify_level_bands (PFin 7.5)) (PFin 7))
    as (_ & M75 & _).
  destruct (proj2 (classify_level_bands (PFin 7)) (PFin 7))
    as (_ & _ & _ & _ & _ & M7 & _).
  destruct (proj2 (classify_level_bands (PFin 6.5)) (PFin 7))
    as (_ & _ & _ & _ & _ & _ & A65 & _).
  destruct (proj2 (classify_level_bands (PFin 6.4)) (PFin 7))
    as (_ & _ & _ & R64 & _).
  split; [|split; [|split; [|split]]].
  - apply S8. reflexivity.
  - apply M75; reflexivity.
  - apply M7. reflexivity.
  - apply A65. reflexivity.
  - apply R64. reflexivity.
Defined.

(** ** The budget evaluator *)

(** C5 (amended): [budget_fit_label] gives "unknown" whenever budget <= 0,
    whatever the cost; otherwise "very_comfortable" when
    total <= 0.8 * budget, "tight_but_possible" when
    0.8 * budget < total <= budget and "over_budget" when total > budget;
    total == 0.8 * budget is very comfortable; total == budget is tight
    where the product 0.8 * budget is below the budget, and very
    comfortable where it is not.  Cost and budget are any floats.  Only
    the "over_budget" case uses a property of the product (that 0.8 times
    a positive budget does not exceed it); the other cases use its
    comparisons alone. *)
Theorem budget_fit_label_cases (total_cost budget : pyfloat) :
  let part := pf_mul (PFin (8 # 10)) budget in
  (pf_le budget (PFin 0) = true ->
     budget_fit_label total_cost budget = budget_unknown) /\
  (pf_le budget (PFin 0) = false ->
     (pf_le total_cost part = true ->
        budget_fit_label total_cost budget = very_comfortable) /\
     (pf_lt part total_cost = true -> pf_le total_cost budget = true ->
        budget_fit_label total_cost budget = tight_but_possible) /\
     (pf_gt total_cost budget = true ->
        budget_fit_label total_cost budget = over_budget) /\
     (pf_eqb total_cost part = true ->
        budget_fit_label total_cost budget = very_comfortable) /\
     (pf_lt part budget = true -> pf_eqb total_cost budget = true ->
        budget_fit_label total_cost budget = tight_but_possible) /\
     (pf_le budget part = true -> pf_eqb total_cost budget = true ->
        budget_fit_label total_cost budget = very_comfortable)).
Proof.
  intros part. unfold budget_fit_label, pf_gt.
  change (pf_mul (PFin (8 # 10)) budget) with part.
  split; [intros ->; reflexivity|].
  intros Hb. rewrite Hb.
  split; [|split; [|split; [|split; [|split]]]].
  - intros ->. reflexivity.
  - clearbody part. clear Hb.
    destruct part as [p| | |], budget as [b| | |], total_cost as [t| | |];
      intros; q_solve.
  - (* the one case that uses the product: 0.8 * budget <= budget *)
    subst part. destruct budget as [b| | |], total_cost as [t| | |];
      intros; q_solve.
  - clearbody part. clear Hb.
    destruct part as [p| | |], budget as [b| | |], total_cost as [t| | |];
      intros; q_solve.
  - clearbody part. clear Hb.
    destruct part as [p| | |], budget as [b| | |], total_cost as [t| | |];
      intros; q_solve.
  - clearbody part. clear Hb.
    destruct part as [p| | |], budget as [b| | |], total_cost as [t| | |];
      intros; q_solve.
Qed.

Lemma budget_fit_label_cases_witness :
  budget_fit_label (PFin 10) (PFin 0) = budget_unknown /\
  budget_fit_label (PFin 24) (PFin 30) = very_comfortable /\
  budget_fit_label (PFin 30) (PFin 30) = tight_but_possible /\
  budget_fit_label (PFin 30.5) (PFin 30) = over_budget /\
  budget_fit_label PPosInf PPosInf = very_comfortable.
Proof.
  destruct (budget_fit_label_cases (PFin 10) (PFin 0)) as (U & _).
  destruct (budget_fit_label_cases (PFin 24) (PFin 30)) as (_ & V).
  destruct (budget_fit_label_cases (PFin 30) (PFin 30)) as (_ & T).
  destruct (budget_fit_label_cases (PFin 30.5) (PFin 30)) as (_ & O).
  destruct (budget_fit_label_cases PPosInf PPosInf) as (_ & I).
  split; [|split; [|split; [|split]]].
  - apply U. reflexivity.
  - destruct (V eq_refl) as (_ & _ & _ & E & _). apply E. reflexivity.
  - destruct (T eq_refl) as (_ & _ & _ & _ & E & _).
    apply E; reflexivity.
  - destruct (O eq_refl) as (_ & _ & E & _). apply E. reflexivity.
  - destruct (I eq_refl) as (_ & _ & _ & _ & _ & E).
    apply E; reflexivity.
Defined.

(** C5 as stated fails at an infinite cost and budget: the budget is
    positive and the cost equals it, yet 0.8 * inf is inf, the first test
    holds and the label is "very_comfortable", not "tight_but_possible". *)
Lemma budget_fit_label_equal_at_infinity :
  pf_le PPosInf (PFin 0) = false /\
  pf_eqb PPosInf PPosInf = true /\
  budget_fit_label PPosInf PPosInf = very_comfortable /\
  budget_fit_label PPosInf PPosInf <> tight_but_possible.
Proof.
  split; [reflexivity|]. split; [reflexivity|]. split; [reflexivity|].
  discriminate.
Qed.

(** ** The English requirement checker *)

Lemma one_of_false (s : string) (l : list string) :
  ~ In s l -> one_of s l = false.
Proof.
  unfold one_of. induction l as [|t l IH]; simpl; intros H; [reflexivity|].
  destruct (String.eqb_spec s t) as [->|_].
  - exfalso. apply H. left. reflexivity.
  - apply IH. intros I. apply H. right. exact I.
Qed.

Lemma eqb_false_of_not_in (s t : string) (l : list string) :
  ~ In s l -> In t l -> String.eqb s t = false.
Proof.
  intros H I. apply String.eqb_neq. intros ->. exact (H I).
Qed.

(** C6: the English check is (false, true) for the proof types "none",
    empty and unrecognised, whatever the score; for ielts, pte and duolingo
    it is (true, false) when the course sets no minimum for that test and
    (score >= minimum, score < minimum) otherwise; for inter and medium it
    is (true, false) exactly when the course has inter_english_ok and the
    country record of the student has allow_inter_english, and
    (false, true) otherwise. *)
Theorem english_ok_for_course_cases (db : Catalog) (course : Course)
    (profile : Profile) :
  let proof := p_english_proof_type profile in
  let score := p_english_score profile in
  let check := english_ok_for_course db course profile in
  let flagged :=
    inter_english_ok course = Some true /\
    exists c, COUNTRY_BY_CODE db (p_country_code profile) = Some c /\
              allow_inter_english c = Some true in
  let by_score (minimum : option Q) :=
    (minimum = None -> check = (true, false)) /\
    (forall m, minimum = Some m ->
       check = (pf_ge score (PFin m), pf_lt score (PFin m))) in
  (proof = "none" \/ proof = "" -> check = (false, true)) /\
  (~ In proof ["none"; ""; "ielts"; "pte"; "duolingo"; "inter"; "medium"] ->
     check = (false, true)) /\
  (proof = "ielts" -> by_score (min_ielts_overall course)) /\
  (proof = "pte" -> by_score (min_pte_overall course)) /\
  (proof = "duolingo" -> by_score (min_duolingo course)) /\
  (proof = "inter" \/ proof = "medium" ->
     (flagged -> check = (true, false)) /\
     (~ flagged -> check = (false, true))).
Proof.
  intros proof score check flagged by_score.
  subst proof score check flagged by_score.
  unfold english_ok_for_course.
  split; [|split; [|split; [|split; [|split]]]].
  - intros [-> | ->]; reflexivity.
  - intros H.
    rewrite (one_of_false _ ["none"; ""]) by (simpl in *; tauto).
    rewrite (one_of_false _ ["inter"; "medium"]) by (simpl in *; tauto).
    rewrite !(eqb_false_of_not_in _ _ _ H) by (simpl; tauto).
    reflexivity.
  - intros ->. simpl. split; [intros ->|intros m ->]; reflexivity.
  - intros ->. simpl. split; [intros ->|intros m ->]; reflexivity.
  - intros ->. simpl. split; [intros ->|intros m ->]; reflexivity.
  - intros H.
    assert (G : (if (dflt false (inter_english_ok course) &&
                     match COUNTRY_BY_CODE db (p_country_code profile) with
                     | Some c => dflt false (allow_inter_english c)
                     | None => false
                     end)%bool
                 then (true, false) else (false, true))
                = english_ok_for_course db course profile).
    { unfold english_ok_for_course. destruct H as [-> | ->]; reflexivity. }
    unfold english_ok_for_course in G.
    rewrite <- G. clear G H.
    split.
    + intros (F & c & L & A). rewrite F, L, A. reflexivity.
    + intros N.
      destruct (inter_english_ok course) as [[|]|]; simpl; try reflexivity.
      destruct (COUNTRY_BY_CODE db (p_country_code profile)) as [c|];
        try reflexivity.
      destruct (allow_inter_english c) as [[|]|] eqn:A; simpl;
        try reflexivity.
      exfalso. apply N. split; [reflexivity|].
      exists c. split; [reflexivity|exact A].
Qed.

Lemma english_ok_for_course_cases_witness :
  english_ok_for_course demo_db (demo_course "ds" "data_science" 7 20)
    (demo_profile "none" 9) = (false, true) /\
  english_ok_for_course demo_db (demo_course "ds" "data_science" 7 20)
    (demo_profile "toefl" 9) = (false, true) /\
  english_ok_for_course demo_db (demo_course "ds" "data_science" 7 20)
    (demo_profile "ielts" 5.5) = (false, true) /\
  english_ok_for_course demo_db (demo_course "ds" "data_science" 7 20)
    (demo_profile "pte" 10) = (true, false) /\
  english_ok_for_course demo_db (demo_course "ds" "data_science" 7 20)
    (demo_profile "medium" 0) = (true, false).
Proof.
  pose (course := demo_course "ds" "data_science" 7 20).
  destruct (english_ok_for_course_cases demo_db course (demo_profile "none" 9))
    as (N & _).
  destruct (english_ok_for_course_cases demo_db course (demo_profile "toefl" 9))
    as (_ & U & _).
  destruct (english_ok_for_course_cases demo_db course
              (demo_profile "ielts" 5.5)) as (_ & _ & I & _).
  destruct (english_ok_for_course_cases demo_db course (demo_profile "pte" 10))
    as (_ & _ & _ & P & _).
  destruct (english_ok_for_course_cases demo_db course
              (demo_profile "medium" 0)) as (_ & _ & _ & _ & _ & M).
  split; [|split; [|split; [|split]]].
  - apply N. left. reflexivity.
  - apply U. simpl. intros H.
    repeat (destruct H as [H | H]; [discriminate H|]). exact H.
  - exact (proj2 (I eq_refl) 6%Q eq_refl).
  - exact (proj1 (P eq_refl) eq_refl).
  - apply (M (or_intror eq_refl)). split; [reflexivity|].
    exists uk. split; reflexivity.
Defined.

(** ** The order of the sort keys *)

Lemma key_lt_false (a b : Z * Q) : key_lt b a = false -> key_le a b.
Proof.
  unfold key_lt, key_le. destruct a as [ra ca], b as [rb cb]; simpl.
  destruct (Z.eqb_spec rb ra) as [->|N]; simpl.
  - intros H. right. split; [reflexivity|]. q_solve.
  - intros H. apply Z.ltb_ge in H. left. lia.
Qed.

Lemma key_lt_true (a b : Z * Q) : key_lt a b = true -> key_le a b.
Proof.
  unfold key_lt, key_le. destruct a as [ra ca], b as [rb cb]; simpl.
  destruct (Z.eqb_spec ra rb) as [->|N]; simpl.
  - intros H. right. split; [reflexivity|]. q_solve.
  - intros H. apply Z.ltb_lt in H. left. exact H.
Qed.

Lemma key_le_trans (a b c : Z * Q) : key_le a b -> key_le b c -> key_le a c.
Proof.
  unfold key_le. intros [L1 | [E1 Q1]] [L2 | [E2 Q2]].
  - left. lia.
  - left. lia.
  - left. lia.
  - right. split; [lia|]. eapply Qle_trans; eassumption.
Qed.

Lemma ordered_trans (a b c : Card) : ordered a b -> ordered b c -> ordered a c.
Proof. apply key_le_trans. Qed.

(** ** The stable insertion sort *)

Lemma insert_card_in (x y : Card) (l : list Card) :
  In y (insert_card x l) <-> y = x \/ In y l.
Proof.
  induction l as [|z l IH]; simpl.
  - intuition congruence.
  - destruct (key_lt (sort_key z) (sort_key x)); simpl.
    + rewrite IH. intuition congruence.
    + intuition congruence.
Qed.

Lemma insert_card_perm (x : Card) (l : list Card) :
  Permutation (x :: l) (insert_card x l).
Proof.
  induction l as [|z l IH]; simpl.
  - apply Permutation_refl.
  - destruct (key_lt (sort_key z) (sort_key x)).
    + eapply perm_trans; [apply perm_swap|].
      apply perm_skip. exact IH.
    + apply Permutation_refl.
Qed.

Lemma sort_cards_perm (l : list Card) : Permutation l (sort_cards l).
Proof.
  induction l as [|x l IH]; simpl.
  - apply perm_nil.
  - eapply perm_trans; [apply perm_skip; exact IH|].
    apply insert_card_perm.
Qed.

Lemma insert_card_sorted (x : Card) (l : list Card) :
  StronglySorted ordered l -> StronglySorted ordered (insert_card x l).
Proof.
  induction l as [|z l IH]; simpl; intros S.
  - constructor; constructor.
  - inversion S as [|? ? S' F]; subst.
    destruct (key_lt (sort_key z) (sort_key x)) eqn:K.
    + constructor; [apply IH; exact S'|].
      apply Forall_forall. intros y I.
      apply insert_card_in in I. destruct I as [->|I].
      * apply key_lt_true. exact K.
      * rewrite Forall_forall in F. apply F. exact I.
    + constructor; [exact S|].
      assert (XZ : ordered x z) by (apply key_lt_false; exact K).
      constructor; [exact XZ|].
      apply Forall_forall. intros y I.
      rewrite Forall_forall in F.
      eapply ordered_trans; [exact XZ|]. apply F. exact I.
Qed.

Lemma sort_cards_sorted (l : list Card) : StronglySorted ordered (sort_cards l).
Proof.
  induction l as [|x l IH]; simpl.
  - constructor.
  - apply insert_card_sorted. exact IH.
Qed.

Lemma sort_cards_in (c : Card) (l : list Card) :
  In c (sort_cards l) <-> In c l.
Proof.
  split; intros H.
  - eapply Permutation_in; [apply Permutation_sym, sort_cards_perm|exact H].
  - eapply Permutation_in; [apply sort_cards_perm|exact H].
Qed.

Lemma has_key_not_lt (k : Z * Q) (x y : Card) :
  has_key k x = true -> has_key k y = true ->
  key_lt (sort_key y) (sort_key x) = false.
Proof.
  unfold has_key, key_lt.
  destruct (sort_key x) as [rx cx], (sort_key y) as [ry cy], k as [rk ck].
  simpl. intros X Y.
  apply andb_prop in X. destruct X as [RX CX].
  apply andb_prop in Y. destruct Y as [RY CY].
  apply Z.eqb_eq in RX, RY. subst rx ry.
  rewrite Z.eqb_refl. simpl. q_solve.
Qed.

Lemma insert_card_stable (k : Z * Q) (x : Card) (l : list Card) :
  filter (has_key k) (insert_card x l) = filter (has_key k) (x :: l).
Proof.
  induction l as [|y l IH]; [reflexivity|].
  simpl insert_card.
  destruct (key_lt (sort_key y) (sort_key x)) eqn:K; [|reflexivity].
  simpl. simpl in IH. rewrite IH.
  destruct (has_key k x) eqn:X, (has_key k y) eqn:Y; try reflexivity.
  rewrite (has_key_not_lt k x y X Y) in K. discriminate K.
Qed.

(** The sort is stable: cards with one key keep the order of the pool.
    With [sort_cards_sorted] and [sort_cards_perm] this fixes the result
    of the sort. *)
Lemma sort_cards_stable (k : Z * Q) (l : list Card) :
  filter (has_key k) (sort_cards l) = filter (has_key k) l.
Proof.
  induction l as [|x l IH]; [reflexivity|].
  simpl sort_cards. rewrite insert_card_stable. simpl. rewrite IH.
  reflexivity.
Qed.

Section SortedLists.
Context {A : Type} (R : A -> A -> Prop).

Lemma StronglySorted_firstn (n : nat) (l : list A) :
  StronglySorted R l -> StronglySorted R (firstn n l).
Proof.
  revert l. induction n as [|n IH]; intros [|x l] S; simpl;
    try constructor.
  - apply IH. inversion S; assumption.
  - inversion S as [|? ? _ F]; subst.
    rewrite Forall_forall in *. intros y I. apply F.
    rewrite <- (firstn_skipn n l). apply in_or_app. left. exact I.
Qed.

Lemma StronglySorted_snoc (l : list A) (x : A) :
  StronglySorted R l -> Forall (fun y => R y x) l ->
  StronglySorted R (l ++ [x]).
Proof.
  induction l as [|y l IH]; simpl; intros S F.
  - constructor; constructor.
  - inversion S as [|? ? S' G]; subst.
    inversion F as [|? ? Ryx F']; subst.
    constructor; [apply IH; assumption|].
    apply Forall_app. split; [exact G|].
    constructor; [exact Ryx|constructor].
Qed.

(** In a strongly sorted list, a card that stands before another one is
    related to it. *)
Lemma StronglySorted_split (l1 l2 l3 : list A) (a b : A) :
  StronglySorted R (l1 ++ a :: l2 ++ b :: l3) -> R a b.
Proof.
  induction l1 as [|x l1 IH]; simpl; intros S.
  - inversion S as [|? ? _ F]; subst.
    rewrite Forall_forall in F. apply F.
    apply in_or_app. right. left. reflexivity.
  - apply IH. inversion S; assumption.
Qed.
End SortedLists.

(** ** From the filter to the card pool *)

Lemma level_eqb_eq (a b : level) : level_eqb a b = true <-> a = b.
Proof. destruct a, b; simpl; split; intros H; congruence. Qed.

Lemma level_eqb_neq (a b : level) : level_eqb a b = false <-> a <> b.
Proof. destruct a, b; simpl; split; intros H; congruence. Qed.

Lemma classify_level_known (cgpa m : pyfloat) :
  classify_level cgpa (Some m) <> unknown.
Proof.
  unfold classify_level.
  destruct (pf_ge _ _); [discriminate|].
  destruct (pf_ge _ _); [discriminate|].
  destruct (pf_ge _ _); discriminate.
Qed.

Lemma eligible_band (cc : string) (clusters : list json) (backlogs : Z)
    (cgpa : pyfloat) (m : Merged) :
  eligible cc clusters backlogs cgpa m = true ->
  pipeline_band cgpa (m_course m) <> reject.
Proof.
  unfold eligible, pipeline_band.
  destruct (negb (String.eqb _ _)); [discriminate|].
  destruct (_ && _)%bool; [discriminate|].
  destruct (match max_backlogs _ with Some _ => _ | None => _ end);
    [discriminate|].
  destruct (_ && _)%bool; [discriminate|].
  destruct (level_eqb _ reject) eqn:E; [discriminate|].
  intros _. apply level_eqb_neq. exact E.
Qed.

Lemma build_course_response_some (db : Catalog) (m : Merged) (p : Profile) :
  pipeline_band (p_cgpa p) (m_course m) <> reject ->
  exists c, build_course_response db m p = Some c /\
            level_band c = pipeline_band (p_cgpa p) (m_course m).
Proof.
  unfold build_course_response, pipeline_band. intros N.
  apply level_eqb_neq in N. rewrite N.
  destruct (english_ok_for_course db (m_course m) p) as [ok gap].
  eexists. split; reflexivity.
Qed.

Lemma build_course_response_band (db : Catalog) (m : Merged) (p : Profile)
    (c : Card) :
  build_course_response db m p = Some c ->
  level_band c = pipeline_band (p_cgpa p) (m_course m) /\
  level_band c <> reject.
Proof.
  unfold build_course_response, pipeline_band.
  destruct (level_eqb _ reject) eqn:E; [discriminate|].
  destruct (english_ok_for_course db (m_course m) p) as [ok gap].
  intros H. injection H as <-. simpl.
  split; [reflexivity|]. apply level_eqb_neq. exact E.
Qed.

Lemma shown_band_iff (c : Card) :
  shown_band c <-> level_band c <> reject /\ level_band c <> unknown.
Proof.
  unfold shown_band. destruct (level_band c); split; intros H.
  all: try (split; discriminate).
  all: try (destruct H as [H | [H | H]]; discriminate H).
  all: try tauto.
  all: destruct H as [H1 H2]; congruence.
Qed.

Lemma build_items_in (db : Catalog) (p : Profile) (ms : list Merged)
    (c : Card) :
  In c (build_items db p ms) ->
  exists m, In m ms /\ build_course_response db m p = Some c.
Proof.
  induction ms as [|m ms IH]; simpl; [tauto|].
  destruct (build_course_response db m p) as [c'|] eqn:B.
  - intros [<- | I].
    + exists m. split; [left; reflexivity|exact B].
    + destruct (IH I) as (m' & I' & B'). exists m'. split; [right|]; assumption.
  - intros I. destruct (IH I) as (m' & I' & B').
    exists m'. split; [right|]; assumption.
Qed.

Lemma build_items_shown (db : Catalog) (p : Profile) (ms : list Merged) :
  Forall shown_band (build_items db p ms).
Proof.
  apply Forall_forall. intros c I.
  apply build_items_in in I. destruct I as (m & _ & B).
  apply build_course_response_band in B. destruct B as [E N].
  apply shown_band_iff. split; [exact N|].
  rewrite E. apply classify_level_known.
Qed.

Lemma build_items_length (db : Catalog) (p : Profile) (ms : list Merged) :
  Forall (fun m => pipeline_band (p_cgpa p) (m_course m) <> reject) ms ->
  List.length (build_items db p ms) = List.length ms.
Proof.
  induction 1 as [|m ms N _ IH]; simpl; [reflexivity|].
  destruct (build_course_response_some db m p N) as (c & -> & _).
  simpl. rewrite IH. reflexivity.
Qed.

Lemma matches_of_band (db : Catalog) (cc : string) (clusters : list json)
    (backlogs : Z) (cgpa : pyfloat) :
  Forall (fun m => pipeline_band cgpa (m_course m) <> reject)
         (matches_of db cc clusters backlogs cgpa).
Proof.
  apply Forall_forall. intros m I.
  apply filter_In in I. destruct I as [_ E].
  eapply eligible_band. exact E.
Qed.

(** ** Ranking and selection *)

Lemma slice_to_firstn {A : Type} (n : Z) (l : list A) :
  0 <= n -> slice_to n l = firstn (Z.to_nat n) l.
Proof.
  intros H. unfold slice_to.
  destruct (Z.ltb_spec n 0) as [L|_]; [lia|reflexivity].
Qed.

Lemma nonempty_filter {A : Type} (f : A -> bool) (l : list A) :
  nonempty (filter f l) = existsb f l.
Proof.
  induction l as [|x l IH]; simpl; [reflexivity|].
  destruct (f x); simpl; [reflexivity|exact IH].
Qed.

Lemma filter_head_find {A : Type} (f : A -> bool) (l : list A) :
  find f l = match filter f l with x :: _ => Some x | [] => None end.
Proof.
  induction l as [|x l IH]; simpl; [reflexivity|].
  destruct (f x); [reflexivity|exact IH].
Qed.

Lemma existsb_perm {A : Type} (f : A -> bool) (l l' : list A) :
  Permutation l l' -> existsb f l = existsb f l'.
Proof.
  intros P. apply eq_true_iff_eq. rewrite !existsb_exists.
  split; intros (x & I & F); exists x; split; try exact F.
  - eapply Permutation_in; eassumption.
  - eapply Permutation_in; [apply Permutation_sym|]; eassumption.
Qed.

Lemma filter_none {A : Type} (f : A -> bool) (l : list A) :
  existsb f l = false -> filter f l = [].
Proof.
  induction l as [|x l IH]; simpl; [reflexivity|].
  destruct (f x); simpl; [discriminate|exact IH].
Qed.

(** When the first [n] cards hold no match of [f] and the whole list holds
    one, the list is longer than [n]. *)
Lemma firstn_misses_length {A : Type} (f : A -> bool) (n : nat)
    (l : list A) :
  existsb f (firstn n l) = false -> existsb f l = true ->
  List.length (firstn n l) = n.
Proof.
  intros T P.
  rewrite <- (firstn_skipn n l), existsb_app, T in P. simpl in P.
  apply firstn_length_le.
  destruct (Nat.le_gt_cases n (List.length l)) as [L|G]; [exact L|].
  rewrite skipn_all2 in P by lia. discriminate P.
Qed.

Lemma rank_and_select_in (pool : list Card) (n : Z) (c : Card) :
  0 <= n -> In c (rank_and_select pool n) -> In c pool.
Proof.
  intros H. unfold rank_and_select. rewrite slice_to_firstn by exact H.
  assert (T : forall x, In x (firstn (Z.to_nat n) (sort_cards pool)) ->
                        In x pool).
  { intros x I. apply sort_cards_in.
    rewrite <- (firstn_skipn (Z.to_nat n) (sort_cards pool)).
    apply in_or_app. left. exact I. }
  destruct (negb _ && _)%bool; [|apply T].
  destruct (filter (is_band ambitious) pool) as [|a rest] eqn:F; [apply T|].
  intros I. apply in_app_or in I. destruct I as [I | [<- | []]].
  - apply T. exact I.
  - assert (I : In a (filter (is_band ambitious) pool))
      by (rewrite F; left; reflexivity).
    apply filter_In in I. tauto.
Qed.

(** What the ranking block returns, against the sorted pool cut at
    [requested_count]. *)
Lemma rank_and_select_spec (pool : list Card) (n : Z) :
  0 <= n ->
  let top := firstn (Z.to_nat n) (sort_cards pool) in
  (existsb (is_band ambitious) pool = true ->
   existsb (is_band ambitious) top = false ->
   exists a,
     find (is_band ambitious) pool = Some a /\
     level_band a = ambitious /\
     rank_and_select pool n = top ++ [a] /\
     List.length top = Z.to_nat n /\
     count_band ambitious (top ++ [a]) = 1%nat) /\
  (existsb (is_band ambitious) pool = false \/
   existsb (is_band ambitious) top = true ->
   rank_and_select pool n = top).
Proof.
  intros H top. subst top.
  unfold rank_and_select. rewrite slice_to_firstn by exact H.
  rewrite nonempty_filter. split.
  - intros P T. rewrite P, T. simpl.
    rewrite filter_head_find.
    destruct (filter (is_band ambitious) pool) as [|a rest] eqn:F.
    + rewrite <- nonempty_filter, F in P. discriminate P.
    + exists a.
      assert (A : is_band ambitious a = true).
      { assert (I : In a (filter (is_band ambitious) pool))
          by (rewrite F; left; reflexivity).
        apply filter_In in I. tauto. }
      split; [reflexivity|].
      split; [apply level_eqb_eq; exact A|].
      split; [reflexivity|].
      split.
      * apply (firstn_misses_length (is_band ambitious)); [exact T|].
        rewrite <- (existsb_perm _ _ _ (sort_cards_perm pool)). exact P.
      * unfold count_band. rewrite filter_app, (filter_none _ _ T).
        simpl. rewrite A. reflexivity.
  - intros [P | T].
    + rewrite P, andb_false_r. reflexivity.
    + rewrite T. reflexivity.
Qed.

(** ** The handler, read backwards from a 200 response *)

Lemma bind_ok {A B : Type} (m : result A) (k : A -> result B) (b : B) :
  bind m k = Ok b -> exists a, m = Ok a /\ k a = Ok b.
Proof.
  destruct m as [a|e]; simpl; intros H; [|discriminate H].
  exists a. split; [reflexivity|exact H].
Qed.

Lemma requested_count_of_range (data : dict) (n : Z) :
  requested_count_of data = Ok n -> 1 <= n <= 15.
Proof.
  unfold requested_count_of. intros H.
  apply bind_ok in H. destruct H as (k & _ & H).
  injection H as <-. lia.
Qed.

Lemma recommend_inv (db : Catalog) (body : json) (r : Response) :
  recommend db body = Ok (Json200 r) ->
  exists data clusters n,
    request_data body = Ok data /\
    requested_count_of data = Ok n /\
    let profile := student_profile r in
    let matches :=
      matches_of db (p_country_code profile) clusters
        (p_backlogs_count profile) (p_cgpa profile) in
    let shown := rank_and_select (candidate_pool db profile clusters) n in
    recommendations r = shown /\
    stats r =
      {| total_matches_before_limit := List.length matches;
         total_shown := List.length shown;
         safe_count := count_band safe shown;
         moderate_count := count_band moderate shown;
         ambitious_count := count_band ambitious shown |}.
Proof.
  unfold recommend. intros H.
  apply bind_ok in H. destruct H as (data & D & H).
  apply bind_ok in H. destruct H as (cc & _ & H).
  destruct (COUNTRY_BY_CODE db cc) as [country|]; [|discriminate H].
  apply bind_ok in H. destruct H as (cgpa & _ & H).
  apply bind_ok in H. destruct H as (budget & _ & H).
  apply bind_ok in H. destruct H as (backlogs & _ & H).
  apply bind_ok in H. destruct H as (work & _ & H).
  apply bind_ok in H. destruct H as (score & _ & H).
  apply bind_ok in H. destruct H as (clusters & _ & H).
  apply bind_ok in H. destruct H as (month & _ & H).
  apply bind_ok in H. destruct H as (proof & _ & H).
  apply bind_ok in H. destruct H as (n & N & H).
  injection H as <-.
  exists data, (filter truthy clusters), n.
  split; [exact D|]. split; [exact N|].
  simpl. split; reflexivity.
Qed.

Lemma rank_and_select_shape (pool : list Card) (n : Z) :
  0 <= n ->
  exists extra,
    rank_and_select pool n = firstn (Z.to_nat n) (sort_cards pool) ++ extra /\
    (List.length extra <= 1)%nat.
Proof.
  intros H. destruct (rank_and_select_spec pool n H) as [More Same].
  destruct (existsb (is_band ambitious) pool) eqn:P.
  - destruct (existsb (is_band ambitious)
                (firstn (Z.to_nat n) (sort_cards pool))) eqn:T.
    + exists []. rewrite app_nil_r. split; [apply Same; tauto|simpl; lia].
    + destruct (More eq_refl eq_refl) as (a & _ & _ & E & _).
      exists [a]. split; [exact E|simpl; lia].
  - exists []. rewrite app_nil_r. split; [apply Same; tauto|simpl; lia].
Qed.

(** ** The requested count *)

(** C1 (amended): whenever [int()] accepts the supplied requested_count,
    the count is clamped into [1,15]; it is 5 when the field is absent or
    falsy (null, 0, false, the empty string), 1 for every other value
    below 1 (such as -3), 15 for every value above 15, and the value
    itself in between; the recommendation list is the sorted pool cut at
    this count, followed by at most one card. *)
Theorem requested_count_clamped (data : dict) :
  let given := get_or data "requested_count" (JInt 5) in
  (forall k, py_int (py_or given (JInt 5)) = Ok k ->
     requested_count_of data = Ok (Z.max 1 (Z.min k 15))) /\
  (forall n, requested_count_of data = Ok n ->
     1 <= n <= 15 /\
     (dict_lookup data "requested_count" = None -> n = 5) /\
     (truthy given = false -> n = 5) /\
     (forall k, truthy given = true -> py_int given = Ok k ->
        (k < 1 -> n = 1) /\ (1 <= k <= 15 -> n = k) /\ (15 < k -> n = 15))) /\
  (forall db body r,
     request_data body = Ok data ->
     recommend db body = Ok (Json200 r) ->
     exists clusters n extra,
       requested_count_of data = Ok n /\
       recommendations r =
         firstn (Z.to_nat n)
           (sort_cards (candidate_pool db (student_profile r) clusters))
         ++ extra /\
       (List.length extra <= 1)%nat).
Proof.
  intros given. split; [|split].
  - intros k K. unfold requested_count_of. fold given. rewrite K. reflexivity.
  - intros n N. split; [eapply requested_count_of_range; exact N|].
    unfold requested_count_of in N. fold given in N.
    apply bind_ok in N. destruct N as (k & K & N). injection N as <-.
    split; [|split].
    + intros L. subst given. unfold get_or, py_or in K. rewrite L in K.
      simpl in K. injection K as <-. reflexivity.
    + intros F. unfold py_or in K. rewrite F in K.
      simpl in K. injection K as <-. reflexivity.
    + intros k' T K'. unfold py_or in K. rewrite T, K' in K.
      injection K as <-. lia.
  - intros db body r D R.
    apply recommend_inv in R.
    destruct R as (data' & clusters & n & D' & N & S & _).
    rewrite D in D'. injection D' as <-.
    destruct (rank_and_select_shape
                (candidate_pool db (student_profile r) clusters) n)
      as (extra & E & L).
    { apply requested_count_of_range in N. lia. }
    exists clusters, n, extra.
    split; [exact N|]. split; [rewrite S; exact E|exact L].
Qed.

Lemma requested_count_clamped_witness :
  requested_count_of [("requested_count", JInt 100)] = Ok 15 /\
  requested_count_of [("requested_count", JStr " 7 ")] = Ok 7 /\
  (forall n, requested_count_of [("requested_count", JInt 0)] = Ok n ->
             n = 5) /\
  (forall n, requested_count_of [("requested_count", JInt (-3))] = Ok n ->
             n = 1) /\
  exists r,
    recommend demo_db (demo_request (JInt 100)) = Ok (Json200 r) /\
    exists clusters n extra,
      requested_count_of (demo_data (JInt 100)) = Ok n /\
      recommendations r =
        firstn (Z.to_nat n)
          (sort_cards (candidate_pool demo_db (student_profile r) clusters))
        ++ extra /\
      (List.length extra <= 1)%nat.
Proof.
  split; [|split; [|split; [|split]]].
  - apply (proj1 (requested_count_clamped [("requested_count", JInt 100)])
             100).
    reflexivity.
  - apply (proj1 (requested_count_clamped [("requested_count", JStr " 7 ")])
             7).
    reflexivity.
  - intros n N.
    destruct (requested_count_clamped [("requested_count", JInt 0)])
      as (_ & Given & _).
    destruct (Given n N) as (_ & _ & Falsy & _).
    apply Falsy. reflexivity.
  - intros n N.
    destruct (requested_count_clamped [("requested_count", JInt (-3))])
      as (_ & Given & _).
    destruct (Given n N) as (_ & _ & _ & Truthy).
    apply (Truthy (-3)); [reflexivity|reflexivity|lia].
  - eexists. split; [vm_compute; reflexivity|].
    destruct (requested_count_clamped (demo_data (JInt 100)))
      as (_ & _ & Cut).
    apply (Cut demo_db (demo_request (JInt 100))); [reflexivity|].
    vm_compute. reflexivity.
Defined.

(** C1 as stated fails at -3: the value is non-positive after parsing, and
    the count is 1, not the default 5. *)
Lemma requested_count_negative_is_one :
  py_int (get_or [("requested_count", JInt (-3))] "requested_count" (JInt 5))
    = Ok (-3) /\
  requested_count_of [("requested_count", JInt (-3))] = Ok 1 /\
  requested_count_of [("requested_count", JInt (-3))] <> Ok 5.
Proof.
  split; [reflexivity|]. split; [reflexivity|]. discriminate.
Qed.

(** A string that is not an integer literal is not clamped at all: the
    conversion is outside the guarded ones and its exception leaves the
    handler. *)
Lemma requested_count_abc_raises :
  requested_count_of [("requested_count", JStr "abc")] = Raise ValueError /\
  recommend demo_db (demo_request (JStr "abc")) = Raise ValueError.
Proof. split; reflexivity. Qed.

(** ** The guarded conversions *)

(** A string that is no numeric literal is coerced to zero. *)
Lemma float_field_bad_string (data : dict) (k s : string) :
  dict_lookup data k = Some (JStr s) -> parse_float s = None ->
  float_field data k = Ok (PFin 0).
Proof.
  intros L P. unfold float_field, get_or. rewrite L. simpl. rewrite P.
  reflexivity.
Qed.

Lemma int_field_bad_string (data : dict) (k s : string) :
  dict_lookup data k = Some (JStr s) -> parse_int s = None ->
  int_field data k = Ok 0.
Proof.
  intros L P. unfold int_field, get_or. rewrite L. simpl. rewrite P.
  reflexivity.
Qed.

(** An absent field reads as zero. *)
Lemma float_field_absent (data : dict) (k : string) :
  dict_lookup data k = None -> float_field data k = Ok (PFin 0).
Proof. intros L. unfold float_field, get_or. rewrite L. reflexivity. Qed.

(** A guarded conversion lets through every exception but [ValueError]:
    null, a list and an object raise [TypeError]. *)
Lemma float_field_not_a_scalar (data : dict) (k : string) (v : json) :
  dict_lookup data k = Some v ->
  match v with JNull | JList _ | JObj _ => True | _ => False end ->
  float_field data k = Raise TypeError.
Proof.
  intros L. unfold float_field, get_or. rewrite L.
  destruct v; simpl; intros H; try contradiction; reflexivity.
Qed.

Lemma int_field_not_a_scalar (data : dict) (k : string) (v : json) :
  dict_lookup data k = Some v ->
  match v with JNull | JList _ | JObj _ => True | _ => False end ->
  int_field data k = Raise TypeError.
Proof.
  intros L. unfold int_field, get_or. rewrite L.
  destruct v; simpl; intros H; try contradiction; reflexivity.
Qed.

(** C2, at the failing input: for a catalogue that knows the default
    country, a request whose cgpa is null is not coerced to zero; the
    [TypeError] of [float(None)] leaves the handler. *)
Theorem null_cgpa_escapes (db : Catalog) (rest : dict) :
  COUNTRY_BY_CODE db "UK" <> None ->
  dict_lookup rest "country_code" = None ->
  recommend db (JObj (("cgpa", JNull) :: rest)) = Raise TypeError.
Proof.
  intros C L. unfold recommend. simpl.
  unfold get, get_or. simpl. rewrite L. simpl.
  change (upper "UK") with "UK".
  destruct (COUNTRY_BY_CODE db "UK") as [country|]; [|contradiction C; auto].
  reflexivity.
Qed.

Lemma null_cgpa_escapes_witness :
  COUNTRY_BY_CODE demo_db "UK" <> None /\
  recommend demo_db (JObj [("cgpa", JNull)]) = Raise TypeError.
Proof.
  assert (C : COUNTRY_BY_CODE demo_db "UK" <> None) by discriminate.
  split; [exact C|].
  apply (null_cgpa_escapes demo_db [] C). reflexivity.
Defined.

(** ** The whole handler *)

(** C3: when the pool before truncation holds an ambitious card and the
    top requested_count of the sorted pool holds none, the list is that
    top followed by exactly one ambitious card, the first one of the pool,
    and has requested_count + 1 cards; otherwise the list is the top,
    unchanged. *)
Theorem extra_ambitious_card (db : Catalog) (body : json) (r : Response) :
  recommend db body = Ok (Json200 r) ->
  exists data clusters n,
    request_data body = Ok data /\
    requested_count_of data = Ok n /\
    let pool := candidate_pool db (student_profile r) clusters in
    let top := firstn (Z.to_nat n) (sort_cards pool) in
    let shown := recommendations r in
    (existsb (is_band ambitious) pool = true ->
     existsb (is_band ambitious) top = false ->
     exists a,
       find (is_band ambitious) pool = Some a /\
       level_band a = ambitious /\
       shown = top ++ [a] /\
       List.length shown = (Z.to_nat n + 1)%nat /\
       count_band ambitious shown = 1%nat) /\
    (existsb (is_band ambitious) pool = false \/
     existsb (is_band ambitious) top = true ->
     shown = top).
Proof.
  intros R. apply recommend_inv in R.
  destruct R as (data & clusters & n & D & N & S & _).
  exists data, clusters, n. split; [exact D|]. split; [exact N|].
  cbv zeta in *.
  destruct (rank_and_select_spec
              (candidate_pool db (student_profile r) clusters) n)
    as [More Same].
  { apply requested_count_of_range in N. lia. }
  split.
  - intros P T. destruct (More P T) as (a & F & A & E & L & C).
    exists a. rewrite S, E.
    split; [exact F|]. split; [exact A|]. split; [reflexivity|].
    split; [|exact C].
    rewrite length_app, L. reflexivity.
  - intros H. rewrite S. apply Same. exact H.
Qed.

Lemma extra_ambitious_card_witness :
  exists r,
    recommend demo_db (demo_request (JInt 1)) = Ok (Json200 r) /\
    exists data clusters n,
      request_data (demo_request (JInt 1)) = Ok data /\
      requested_count_of data = Ok n /\
      let pool := candidate_pool demo_db (student_profile r) clusters in
      let top := firstn (Z.to_nat n) (sort_cards pool) in
      let shown := recommendations r in
      (existsb (is_band ambitious) pool = true ->
       existsb (is_band ambitious) top = false ->
       exists a,
         find (is_band ambitious) pool = Some a /\
         level_band a = ambitious /\
         shown = top ++ [a] /\
         List.length shown = (Z.to_nat n + 1)%nat /\
         count_band ambitious shown = 1%nat) /\
      (existsb (is_band ambitious) pool = false \/
       existsb (is_band ambitious) top = true ->
       shown = top).
Proof.
  eexists. split; [vm_compute; reflexivity|].
  apply (extra_ambitious_card demo_db (demo_request (JInt 1))).
  vm_compute. reflexivity.
Defined.

Lemma pf_sub_same (c : pyfloat) (x y : Q) :
  (x == y)%Q -> pf_same (pf_sub c (PFin x)) (pf_sub c (PFin y)).
Proof.
  intros E. destruct c as [q| | |]; simpl; try exact I.
  rewrite E. reflexivity.
Qed.

Lemma pipeline_band_raw (cgpa : pyfloat) (course : Course) :
  classify_level cgpa (option_map PFin (min_cgpa_india course)) = unknown \/
  classify_level cgpa (option_map PFin (min_cgpa_india course))
    = pipeline_band cgpa course.
Proof.
  unfold pipeline_band.
  destruct (min_cgpa_india course) as [q|] eqn:M; [right|left; reflexivity].
  simpl option_map. apply classify_level_same, pf_sub_same.
  rewrite (or_zero_eq (Some q)). reflexivity.
Qed.

(** C7: the eligibility filter passes no record whose min_cgpa_india puts
    the profile's CGPA in the "reject" band, neither as the filter reads
    the minimum (through [or 0]) nor as the catalogue states it, and no
    card of a response has level_band "reject". *)
Theorem no_reject_survives (db : Catalog) :
  (forall cc clusters backlogs cgpa m,
     In m (matches_of db cc clusters backlogs cgpa) ->
     classify_level cgpa
       (Some (PFin (or_zero (min_cgpa_india (m_course m))))) <> reject /\
     classify_level cgpa
       (option_map PFin (min_cgpa_india (m_course m))) <> reject) /\
  (forall body r c,
     recommend db body = Ok (Json200 r) ->
     In c (recommendations r) ->
     level_band c <> reject).
Proof.
  split.
  - intros cc clusters backlogs cgpa m I.
    pose proof (matches_of_band db cc clusters backlogs cgpa) as F.
    rewrite Forall_forall in F. specialize (F m I).
    split; [exact F|].
    destruct (pipeline_band_raw cgpa (m_course m)) as [U | E].
    + rewrite U. discriminate.
    + rewrite E. exact F.
  - intros body r c R I.
    apply recommend_inv in R.
    destruct R as (data & clusters & n & _ & N & S & _).
    cbv zeta in S. rewrite S in I.
    apply rank_and_select_in in I;
      [|apply requested_count_of_range in N; lia].
    pose proof (build_items_shown db (student_profile r)
                  (matches_of db (p_country_code (student_profile r))
                     clusters (p_backlogs_count (student_profile r))
                     (p_cgpa (student_profile r)))) as F.
    rewrite Forall_forall in F. specialize (F c I).
    apply shown_band_iff in F. tauto.
Qed.

Lemma no_reject_survives_witness :
  exists r,
    recommend demo_db (demo_request (JInt 8)) = Ok (Json200 r) /\
    In (demo_merged "ds" "data_science" 7 20)
       (matches_of demo_db "UK" [] 0 (PFin 8.2)) /\
    classify_level (PFin 8.2) (Some (PFin 7)) <> reject /\
    forall c, In c (recommendations r) -> level_band c <> reject.
Proof.
  eexists. split; [vm_compute; reflexivity|].
  destruct (no_reject_survives demo_db) as [Filter Cards].
  assert (I : In (demo_merged "ds" "data_science" 7 20)
                 (matches_of demo_db "UK" [] 0 (PFin 8.2)))
    by (vm_compute; tauto).
  split; [exact I|]. split.
  - exact (proj2 (Filter "UK" [] 0 (PFin 8.2) _ I)).
  - intros c. apply (Cards (demo_request (JInt 8))).
    vm_compute. reflexivity.
Defined.

Lemma shown_band_rank (c a : Card) :
  shown_band c -> is_band ambitious c = false -> level_band a = ambitious ->
  ordered c a.
Proof.
  unfold shown_band, is_band, ordered, key_le, sort_key. simpl.
  intros [S | [M | A]] N E; rewrite E.
  - rewrite S. left. simpl. lia.
  - rewrite M. left. simpl. lia.
  - rewrite A in N. discriminate N.
Qed.

Lemma rank_and_select_sorted (pool : list Card) (n : Z) :
  0 <= n -> Forall shown_band pool ->
  StronglySorted ordered (rank_and_select pool n).
Proof.
  intros H F.
  destruct (rank_and_select_spec pool n H) as [More Same].
  assert (T : StronglySorted ordered (firstn (Z.to_nat n) (sort_cards pool)))
    by apply StronglySorted_firstn, sort_cards_sorted.
  destruct (existsb (is_band ambitious) pool) eqn:P;
    [|rewrite Same by tauto; exact T].
  destruct (existsb (is_band ambitious)
              (firstn (Z.to_nat n) (sort_cards pool))) eqn:E;
    [rewrite Same by tauto; exact T|].
  destruct (More eq_refl eq_refl) as (a & _ & A & -> & _).
  apply StronglySorted_snoc; [exact T|].
  apply Forall_forall. intros c I.
  apply shown_band_rank; [| |exact A].
  - rewrite Forall_forall in F. apply F, sort_cards_in.
    rewrite <- (firstn_skipn (Z.to_nat n) (sort_cards pool)).
    apply in_or_app. left. exact I.
  - destruct (is_band ambitious c) eqn:B; [|reflexivity].
    assert (X : existsb (is_band ambitious)
                  (firstn (Z.to_nat n) (sort_cards pool)) = true)
      by (apply existsb_exists; exists c; split; assumption).
    congruence.
Qed.

(** C8: the recommendation list is sorted ascending by
    (level_band_rank, total_first_year_cost_lakhs): of two cards, the
    earlier one has the smaller or equal rank, so no "moderate" card
    stands before a "safe" one, and within one band the earlier card costs
    no more than the later one. *)
Theorem recommendations_sorted (db : Catalog) (body : json) (r : Response) :
  recommend db body = Ok (Json200 r) ->
  StronglySorted ordered (recommendations r) /\
  forall l1 a l2 b l3,
    recommendations r = l1 ++ a :: l2 ++ b :: l3 ->
    level_order (level_band a) <= level_order (level_band b) /\
    ~ (level_band a = moderate /\ level_band b = safe) /\
    (level_band a = level_band b ->
     (total_first_year_cost_lakhs a <= total_first_year_cost_lakhs b)%Q).
Proof.
  intros R. apply recommend_inv in R.
  destruct R as (data & clusters & n & _ & N & S & _).
  cbv zeta in S.
  assert (Sorted : StronglySorted ordered (recommendations r)).
  { rewrite S. apply rank_and_select_sorted.
    - apply requested_count_of_range in N. lia.
    - apply build_items_shown. }
  split; [exact Sorted|].
  intros l1 a l2 b l3 E. rewrite E in Sorted.
  apply StronglySorted_split in Sorted.
  unfold ordered, key_le, sort_key in Sorted. simpl in Sorted.
  split; [lia|]. split.
  - intros [A B]. rewrite A, B in Sorted. simpl in Sorted. lia.
  - intros B. rewrite B in Sorted.
    destruct Sorted as [L | [_ C]]; [lia|exact C].
Qed.

Lemma recommendations_sorted_witness :
  exists r,
    recommend demo_db (demo_request (JInt 8)) = Ok (Json200 r) /\
    StronglySorted ordered (recommendations r).
Proof.
  eexists. split; [vm_compute; reflexivity|].
  refine (proj1 (recommendations_sorted demo_db (demo_request (JInt 8)) _ _)).
  vm_compute. reflexivity.
Defined.

(** C9: every record that passes the eligibility filter yields a card
    (the drop branch of [build_course_response] is not taken for it), so
    the pool before truncation has total_matches_before_limit cards. *)
Theorem every_match_yields_card (db : Catalog) :
  (forall profile clusters m,
     In m (matches_of db (p_country_code profile) clusters
             (p_backlogs_count profile) (p_cgpa profile)) ->
     exists c, build_course_response db m profile = Some c) /\
  (forall body r,
     recommend db body = Ok (Json200 r) ->
     exists data clusters n,
       request_data body = Ok data /\
       requested_count_of data = Ok n /\
       recommendations r =
         rank_and_select (candidate_pool db (student_profile r) clusters) n /\
       List.length (candidate_pool db (student_profile r) clusters)
         = total_matches_before_limit (stats r)).
Proof.
  split.
  - intros profile clusters m I.
    pose proof (matches_of_band db (p_country_code profile) clusters
                  (p_backlogs_count profile) (p_cgpa profile)) as F.
    rewrite Forall_forall in F.
    destruct (build_course_response_some db m profile (F m I)) as (c & B & _).
    exists c. exact B.
  - intros body r R. apply recommend_inv in R.
    destruct R as (data & clusters & n & D & N & S & St).
    exists data, clusters, n.
    split; [exact D|]. split; [exact N|]. split; [exact S|].
    cbv zeta in St. rewrite St. simpl.
    unfold candidate_pool. apply build_items_length, matches_of_band.
Qed.

Lemma every_match_yields_card_witness :
  exists r,
    recommend demo_db (demo_request (JInt 1)) = Ok (Json200 r) /\
    (exists c,
       build_course_response demo_db (demo_merged "mba" "mba" 8 25)
         (demo_profile "ielts" 6.5) = Some c) /\
    exists data clusters n,
      request_data (demo_request (JInt 1)) = Ok data /\
      requested_count_of data = Ok n /\
      recommendations r =
        rank_and_select (candidate_pool demo_db (student_profile r) clusters)
          n /\
      List.length (candidate_pool demo_db (student_profile r) clusters)
        = total_matches_before_limit (stats r).
Proof.
  eexists. split; [vm_compute; reflexivity|].
  destruct (every_match_yields_card demo_db) as [Card Pool].
  split.
  - apply (Card (demo_profile "ielts" 6.5) []).
    vm_compute. tauto.
  - apply (Pool (demo_request (JInt 1))). vm_compute. reflexivity.
Defined.

Lemma count_band_total (l : list Card) :
  Forall shown_band l ->
  (count_band safe l + count_band moderate l + count_band ambitious l
   = List.length l)%nat.
Proof.
  unfold count_band, is_band.
  induction 1 as [|c l B _ IH]; simpl; [reflexivity|].
  destruct B as [E | [E | E]]; rewrite E; simpl; lia.
Qed.

(** C10: no card of a response has level_band "unknown" (the minimum
    reaches [classify_level] as a number, never as None), so the three
    band counts of the statistics add up to total_shown. *)
Theorem no_unknown_card (db : Catalog) (body : json) (r : Response) :
  recommend db body = Ok (Json200 r) ->
  (forall c, In c (recommendations r) -> level_band c <> unknown) /\
  (forall cgpa course,
     classify_level cgpa (Some (PFin (or_zero (min_cgpa_india course))))
       <> unknown) /\
  (safe_count (stats r) + moderate_count (stats r)
   + ambitious_count (stats r) = total_shown (stats r))%nat.
Proof.
  intros R. apply recommend_inv in R.
  destruct R as (data & clusters & n & _ & N & S & St).
  cbv zeta in S, St.
  assert (F : Forall shown_band (recommendations r)).
  { apply Forall_forall. intros c I. rewrite S in I.
    apply rank_and_select_in in I;
      [|apply requested_count_of_range in N; lia].
    pose proof (build_items_shown db (student_profile r)
                  (matches_of db (p_country_code (student_profile r))
                     clusters (p_backlogs_count (student_profile r))
                     (p_cgpa (student_profile r)))) as G.
    rewrite Forall_forall in G. exact (G c I). }
  split; [|split].
  - intros c I. rewrite Forall_forall in F.
    specialize (F c I). apply shown_band_iff in F. tauto.
  - intros cgpa course. apply classify_level_known.
  - rewrite St. simpl. rewrite <- S. apply count_band_total. exact F.
Qed.

Lemma no_unknown_card_witness :
  exists r,
    recommend demo_db (demo_request (JInt 8)) = Ok (Json200 r) /\
    (safe_count (stats r) + moderate_count (stats r)
     + ambitious_count (stats r) = total_shown (stats r))%nat.
Proof.
  eexists. split; [vm_compute; reflexivity|].
  refine (proj2 (proj2
    (no_unknown_card demo_db (demo_request (JInt 8)) _ _))).
  vm_compute. reflexivity.
Defined.

(** ** The handler on the small catalogue *)

Example demo_top_one :
  shown_ids (recommend demo_db (demo_request (JInt 1)))
  = Some [(Some "ds", safe); (Some "ai", ambitious)].
Proof. vm_compute. reflexivity. Qed.

Example demo_top_eight :
  shown_ids (recommend demo_db (demo_request (JInt 8)))
  = Some [(Some "ds", safe); (Some "mba", moderate);
          (Some "ml", ambitious); (Some "ai", ambitious)].
Proof. vm_compute. reflexivity. Qed.

Example demo_text_cgpa :
  shown_ids (recommend demo_db (JObj [("cgpa", JStr "eight")])) = Some [].
Proof. vm_compute. reflexivity. Qed.

Example demo_unknown_country :
  recommend demo_db (JObj [("country_code", JStr "fr")])
  = Ok (Json400 "Invalid or unsupported country_code").
Proof. vm_compute. reflexivity. Qed.

(** ** Where the handler can raise

    The filter, the card construction and the ranking are total: once the
    request conversions succeed and the country is known, the handler
    answers 200. *)
Lemma recommend_returns (db : Catalog) (data : dict) (cc : string) :
  py_upper (py_or (get data "country_code") (JStr "UK")) = Ok cc ->
  COUNTRY_BY_CODE db cc <> None ->
  (forall k, exists f, float_field data k = Ok f) ->
  (exists z, int_field data "backlogs_count" = Ok z) ->
  (exists l, py_iter (py_or (get data "subject_clusters") (JList [])) = Ok l) ->
  (exists m,
     month_from_intake_string (get_or data "target_intake" (JStr "")) = Ok m) ->
  (exists s,
     py_lower (py_or (get data "english_proof_type") (JStr "")) = Ok s) ->
  (exists n, requested_count_of data = Ok n) ->
  exists r, recommend db (JObj data) = Ok (Json200 r).
Proof.
  intros U C F (z & Z) (l & L) (m & M) (s & S) (n & N).
  unfold recommend. simpl. rewrite U. simpl.
  destruct (COUNTRY_BY_CODE db cc) as [country|]; [|contradiction C; auto].
  destruct (F "cgpa") as (cgpa & ->). simpl.
  destruct (F "budget_lakhs") as (budget & ->). simpl.
  rewrite Z. simpl.
  destruct (F "work_ex_years") as (work & ->). simpl.
  destruct (F "english_score") as (score & ->). simpl.
  rewrite L. simpl. rewrite M. simpl. rewrite S. simpl. rewrite N. simpl.
  eexists. reflexivity.
Qed.

(* ================================================================== *)
(** * Further properties of the module *)

(** ** The handler, read backwards with its profile *)

Lemma recommend_fields (db : Catalog) (body : json) (r : Response) :
  recommend db body = Ok (Json200 r) ->
  exists data raw n,
    let profile := student_profile r in
    request_data body = Ok data /\
    py_upper (py_or (get data "country_code") (JStr "UK"))
      = Ok (p_country_code profile) /\
    COUNTRY_BY_CODE db (p_country_code profile) <> None /\
    float_field data "cgpa" = Ok (p_cgpa profile) /\
    float_field data "budget_lakhs" = Ok (p_budget_lakhs profile) /\
    int_field data "backlogs_count" = Ok (p_backlogs_count profile) /\
    float_field data "work_ex_years" = Ok (p_work_ex_years profile) /\
    float_field data "english_score" = Ok (p_english_score profile) /\
    py_iter (py_or (get data "subject_clusters") (JList [])) = Ok raw /\
    month_from_intake_string (get_or data "target_intake" (JStr ""))
      = Ok (p_intake_month profile) /\
    py_lower (py_or (get data "english_proof_type") (JStr ""))
      = Ok (p_english_proof_type profile) /\
    requested_count_of data = Ok n /\
    recommendations r
      = rank_and_select (candidate_pool db profile (filter truthy raw)) n /\
    total_matches_before_limit (stats r)
      = List.length (matches_of db (p_country_code profile)
                       (filter truthy raw) (p_backlogs_count profile)
                       (p_cgpa profile)) /\
    total_shown (stats r) = List.length (recommendations r).
Proof.
  unfold recommend. intros H.
  apply bind_ok in H. destruct H as (data & D & H).
  apply bind_ok in H. destruct H as (cc & CC & H).
  destruct (COUNTRY_BY_CODE db cc) as [country|] eqn:C; [|discriminate H].
  apply bind_ok in H. destruct H as (cgpa & F1 & H).
  apply bind_ok in H. destruct H as (budget & F2 & H).
  apply bind_ok in H. destruct H as (backlogs & F3 & H).
  apply bind_ok in H. destruct H as (work & F4 & H).
  apply bind_ok in H. destruct H as (score & F5 & H).
  apply bind_ok in H. destruct H as (raw & I & H).
  apply bind_ok in H. destruct H as (month & M & H).
  apply bind_ok in H. destruct H as (proof & P & H).
  apply bind_ok in H. destruct H as (n & N & H).
  injection H as <-.
  exists data, raw, n. simpl.
  repeat (split; [assumption || (rewrite C; discriminate) || reflexivity|]).
  reflexivity.
Qed.

Lemma eligible_inv (cc : string) (clusters : list json) (backlogs : Z)
    (cgpa : pyfloat) (m : Merged) :
  eligible cc clusters backlogs cgpa m = true ->
  m_country_code m = cc /\
  (clusters <> [] ->
   cluster_in (dflt "" (subject_cluster (m_course m))) clusters = true) /\
  (forall mb, max_backlogs (m_course m) = Some mb ->
              (inject_Z backlogs <= mb)%Q) /\
  (accepts_backlog_history (m_course m) = Some false -> backlogs <= 0) /\
  pipeline_band cgpa (m_course m) <> reject.
Proof.
  intros E. pose proof (eligible_band _ _ _ _ _ E) as B.
  unfold eligible in E.
  destruct (String.eqb_spec (m_country_code m) cc) as [CC|]; simpl in E;
    [|discriminate E].
  split; [exact CC|].
  destruct (nonempty clusters &&
            negb (cluster_in (dflt "" (subject_cluster (m_course m)))
                    clusters))%bool eqn:S; [discriminate E|].
  split.
  { intros NE. destruct clusters as [|j js]; [contradiction NE; reflexivity|].
    simpl nonempty in S. rewrite andb_true_l in S.
    apply negb_false_iff in S. exact S. }
  destruct (max_backlogs (m_course m)) as [mb|] eqn:MB.
  - destruct (Qltb mb (inject_Z backlogs)) eqn:L; [discriminate E|].
    split; [intros mb' X; injection X as <-; q_solve|].
    destruct (accepts_backlog_history (m_course m)) as [[|]|]; simpl in E.
    + split; [discriminate|exact B].
    + destruct (Z.ltb_spec 0 backlogs); [discriminate E|].
      split; [intros _; lia|exact B].
    + split; [discriminate|exact B].
  - split; [discriminate|].
    destruct (accepts_backlog_history (m_course m)) as [[|]|]; simpl in E.
    + split; [discriminate|exact B].
    + destruct (Z.ltb_spec 0 backlogs); [discriminate E|].
      split; [intros _; lia|exact B].
    + split; [discriminate|exact B].
Qed.

Lemma candidate_pool_in (db : Catalog) (p : Profile) (clusters : list json)
    (c : Card) :
  In c (candidate_pool db p clusters) ->
  exists m,
    In m (flat_courses db) /\
    eligible (p_country_code p) clusters (p_backlogs_count p) (p_cgpa p) m
      = true /\
    build_course_response db m p = Some c.
Proof.
  unfold candidate_pool, matches_of. intros I.
  apply build_items_in in I. destruct I as (m & I & B).
  apply filter_In in I. destruct I as [I E].
  exists m. split; [exact I|]. split; [exact E|exact B].
Qed.

Lemma shown_in_pool (db : Catalog) (body : json) (r : Response) (c : Card) :
  recommend db body = Ok (Json200 r) ->
  In c (recommendations r) ->
  exists data raw,
    request_data body = Ok data /\
    py_iter (py_or (get data "subject_clusters") (JList [])) = Ok raw /\
    In c (candidate_pool db (student_profile r) (filter truthy raw)).
Proof.
  intros R I. apply recommend_fields in R.
  destruct R as (data & raw & n & R). cbv zeta in R.
  destruct R as (D & _ & _ & _ & _ & _ & _ & _ & It & _ & _ & N & S & _).
  exists data, raw. split; [exact D|]. split; [exact It|].
  rewrite S in I. apply rank_and_select_in in I; [exact I|].
  apply requested_count_of_range in N. lia.
Qed.

(** ** What the ranking block guarantees *)

Lemma rank_and_select_ambitious (pool : list Card) (n : Z) :
  0 <= n ->
  existsb (is_band ambitious) (rank_and_select pool n)
  = existsb (is_band ambitious) pool.
Proof.
  intros H. destruct (rank_and_select_spec pool n H) as [More Same].
  destruct (existsb (is_band ambitious) pool) eqn:P.
  - destruct (existsb (is_band ambitious)
                (firstn (Z.to_nat n) (sort_cards pool))) eqn:T.
    + rewrite Same by tauto. exact T.
    + destruct (More eq_refl eq_refl) as (a & _ & A & -> & _).
      rewrite existsb_app. simpl. unfold is_band at 2. rewrite A.
      simpl. apply orb_true_r.
  - rewrite Same by tauto.
    destruct (existsb (is_band ambitious)
                (firstn (Z.to_nat n) (sort_cards pool))) eqn:T;
      [|reflexivity].
    apply existsb_exists in T. destruct T as (c & I & B).
    assert (X : existsb (is_band ambitious) pool = true).
    { apply existsb_exists. exists c. split; [|exact B].
      apply sort_cards_in.
      rewrite <- (firstn_skipn (Z.to_nat n) (sort_cards pool)).
      apply in_or_app. left. exact I. }
    congruence.
Qed.

Lemma rank_and_select_length (pool : list Card) (n : Z) :
  1 <= n ->
  (List.length (rank_and_select pool n) <= Z.to_nat n + 1)%nat /\
  (List.length (rank_and_select pool n) <= List.length pool)%nat /\
  (rank_and_select pool n = [] <-> pool = []).
Proof.
  intros H.
  assert (H0 : 0 <= n) by lia.
  destruct (rank_and_select_spec pool n H0) as [More Same].
  pose proof (firstn_le_length (Z.to_nat n) (sort_cards pool)) as L1.
  pose proof (length_firstn (Z.to_nat n) (sort_cards pool)) as L2.
  pose proof (Permutation_length (sort_cards_perm pool)) as L3.
  assert (Top : firstn (Z.to_nat n) (sort_cards pool) = [] -> pool = []).
  { intros E. rewrite E in L2.
    change (List.length (@nil Card)) with 0%nat in L2.
    destruct pool as [|c pool]; [reflexivity|].
    change (List.length (c :: pool)) with (S (List.length pool)) in L3.
    lia. }
  destruct (existsb (is_band ambitious) pool) eqn:P.
  - destruct (existsb (is_band ambitious)
                (firstn (Z.to_nat n) (sort_cards pool))) eqn:T.
    + rewrite Same by tauto.
      split; [lia|]. split; [lia|].
      split; [exact Top|intros ->; apply firstn_nil].
    + destruct (More eq_refl eq_refl) as (a & _ & _ & -> & Len & _).
      rewrite length_app. simpl.
      split; [lia|]. split.
      * destruct (Nat.le_gt_cases (List.length (sort_cards pool))
                    (Z.to_nat n)) as [Short|Long]; [|lia].
        rewrite firstn_all2 in T by exact Short.
        rewrite <- (existsb_perm _ _ _ (sort_cards_perm pool)) in T.
        congruence.
      * split; [intros E; destruct (firstn _ _); discriminate E|].
        intros ->. discriminate P.
  - rewrite Same by tauto.
    split; [lia|]. split; [lia|].
    split; [exact Top|intros ->; apply firstn_nil].
Qed.

(** X1: an ambitious card is among the recommendations exactly when the
    pool before truncation holds one, whatever the requested count. *)
Theorem ambitious_shown_iff_in_pool (db : Catalog) (body : json)
    (r : Response) (data : dict) (raw : list json) :
  recommend db body = Ok (Json200 r) ->
  request_data body = Ok data ->
  py_iter (py_or (get data "subject_clusters") (JList [])) = Ok raw ->
  existsb (is_band ambitious) (recommendations r)
  = existsb (is_band ambitious)
      (candidate_pool db (student_profile r) (filter truthy raw)).
Proof.
  intros R D I. apply recommend_fields in R.
  destruct R as (data' & raw' & n & R). cbv zeta in R.
  destruct R as (D' & _ & _ & _ & _ & _ & _ & _ & I' & _ & _ & N & S & _).
  rewrite D in D'. injection D' as <-.
  rewrite I in I'. injection I' as <-.
  rewrite S. apply rank_and_select_ambitious.
  apply requested_count_of_range in N. lia.
Qed.

Lemma ambitious_shown_iff_in_pool_witness :
  exists r,
    recommend demo_db (demo_request (JInt 1)) = Ok (Json200 r) /\
    existsb (is_band ambitious) (recommendations r)
    = existsb (is_band ambitious)
        (candidate_pool demo_db (student_profile r) (filter truthy [])).
Proof.
  eexists. split; [vm_compute; reflexivity|].
  apply (ambitious_shown_iff_in_pool demo_db (demo_request (JInt 1)) _
           (demo_data (JInt 1)) []).
  - vm_compute. reflexivity.
  - reflexivity.
  - reflexivity.
Defined.

(** X2: a response shows at most 16 cards and never more than the number
    of matches it reports, and it shows no card only when nothing
    matched. *)
Theorem shown_count_bounds (db : Catalog) (body : json) (r : Response) :
  recommend db body = Ok (Json200 r) ->
  (total_shown (stats r) <= 16)%nat /\
  (total_shown (stats r) <= total_matches_before_limit (stats r))%nat /\
  (recommendations r = [] <-> total_matches_before_limit (stats r) = 0%nat).
Proof.
  intros R. apply recommend_fields in R.
  destruct R as (data & raw & n & R). cbv zeta in R.
  destruct R as (_ & _ & _ & _ & _ & _ & _ & _ & _ & _ & _ & N & S & M & T).
  apply requested_count_of_range in N.
  destruct (rank_and_select_length
              (candidate_pool db (student_profile r) (filter truthy raw)) n)
    as (L1 & L2 & E); [lia|].
  assert (P : List.length
                (candidate_pool db (student_profile r) (filter truthy raw))
              = total_matches_before_limit (stats r)).
  { rewrite M. unfold candidate_pool.
    apply build_items_length, matches_of_band. }
  rewrite T, S, <- P.
  split; [lia|]. split; [exact L2|].
  rewrite E. split; [intros ->; reflexivity|].
  intros Z. destruct (candidate_pool _ _ _); [reflexivity|discriminate Z].
Qed.

Lemma shown_count_bounds_witness :
  exists r,
    recommend demo_db (demo_request (JInt 100)) = Ok (Json200 r) /\
    (total_shown (stats r) <= 16)%nat /\
    (total_shown (stats r) <= total_matches_before_limit (stats r))%nat /\
    (recommendations r = [] <-> total_matches_before_limit (stats r) = 0%nat).
Proof.
  eexists. split; [vm_compute; reflexivity|].
  apply (shown_count_bounds demo_db (demo_request (JInt 100))).
  vm_compute. reflexivity.
Defined.

(** ** Where a shown card comes from *)

Lemma cluster_in_In (cluster : string) (l : list json) :
  cluster_in cluster l = true -> In (JStr cluster) l.
Proof.
  unfold cluster_in. intros H. apply existsb_exists in H.
  destruct H as (j & I & E). destruct j; try discriminate E.
  apply String.eqb_eq in E. subst. exact I.
Qed.

(** X3: every shown card is built from a catalogue entry of the requested
    country; when the request names subject clusters the course's cluster
    is one of them, the student's backlogs do not exceed the course's
    max_backlogs, and a course that refuses a backlog history is shown
    only to a student without backlogs. *)
Theorem shown_card_provenance (db : Catalog) (body : json) (r : Response)
    (data : dict) (raw : list json) (c : Card) :
  recommend db body = Ok (Json200 r) ->
  request_data body = Ok data ->
  py_iter (py_or (get data "subject_clusters") (JList [])) = Ok raw ->
  In c (recommendations r) ->
  exists m,
    In m (flat_courses db) /\
    m_country_code m = p_country_code (student_profile r) /\
    build_course_response db m (student_profile r) = Some c /\
    (filter truthy raw <> [] ->
     In (JStr (dflt "" (subject_cluster (m_course m)))) raw) /\
    (forall mb, max_backlogs (m_course m) = Some mb ->
       (inject_Z (p_backlogs_count (student_profile r)) <= mb)%Q) /\
    (accepts_backlog_history (m_course m) = Some false ->
       p_backlogs_count (student_profile r) <= 0).
Proof.
  intros R D I C.
  destruct (shown_in_pool db body r c R C) as (data' & raw' & D' & I' & P).
  rewrite D in D'. injection D' as <-.
  rewrite I in I'. injection I' as <-.
  apply candidate_pool_in in P. destruct P as (m & F & E & B).
  apply eligible_inv in E. destruct E as (CC & S & MB & A & _).
  exists m. split; [exact F|]. split; [exact CC|]. split; [exact B|].
  split; [|split; assumption].
  intros NE. specialize (S NE). apply cluster_in_In in S.
  apply filter_In in S. tauto.
Qed.

Lemma shown_card_provenance_witness :
  exists r c,
    recommend demo_db
      (JObj (("subject_clusters", JList [JStr "data_science"; JStr ""])
             :: demo_data (JInt 3))) = Ok (Json200 r) /\
    In c (recommendations r) /\
    exists m,
      In m (flat_courses demo_db) /\
      m_country_code m = p_country_code (student_profile r) /\
      build_course_response demo_db m (student_profile r) = Some c /\
      (filter truthy [JStr "data_science"; JStr ""] <> [] ->
       In (JStr (dflt "" (subject_cluster (m_course m))))
          [JStr "data_science"; JStr ""]) /\
      (forall mb, max_backlogs (m_course m) = Some mb ->
         (inject_Z (p_backlogs_count (student_profile r)) <= mb)%Q) /\
      (accepts_backlog_history (m_course m) = Some false ->
         p_backlogs_count (student_profile r) <= 0).
Proof.
  eexists. eexists.
  split; [vm_compute; reflexivity|].
  split; [left; reflexivity|].
  eapply (shown_card_provenance demo_db
            (JObj (("subject_clusters", JList [JStr "data_science"; JStr ""])
                   :: demo_data (JInt 3)))
            _
            (("subject_clusters", JList [JStr "data_science"; JStr ""])
             :: demo_data (JInt 3))
            [JStr "data_science"; JStr ""]).
  - vm_compute. reflexivity.
  - reflexivity.
  - reflexivity.
  - left. reflexivity.
Defined.

(** ** What a card says about itself *)

Lemma english_check_exclusive (db : Catalog) (course : Course)
    (p : Profile) :
  let check := english_ok_for_course db course p in
  (fst check && snd check)%bool = false /\
  (p_english_score p <> PNaN -> snd check = negb (fst check)).
Proof.
  assert (S : forall m,
            (pf_ge (p_english_score p) (PFin m)
             && pf_lt (p_english_score p) (PFin m))%bool = false /\
            (p_english_score p <> PNaN ->
             pf_lt (p_english_score p) (PFin m)
             = negb (pf_ge (p_english_score p) (PFin m)))).
  { intros m. unfold pf_ge.
    destruct (p_english_score p) as [s| | |]; simpl;
      try (split; [reflexivity|intros; reflexivity]).
    - unfold Qltb. destruct (Qle_bool m s); split; reflexivity.
    - split; [reflexivity|]. intros N. contradiction N. reflexivity. }
  unfold english_ok_for_course. cbv zeta.
  repeat match goal with
         | |- context [if ?b then _ else _] => destruct b
         | |- context [match ?o with Some _ => _ | None => _ end] =>
             destruct o
         end;
    simpl; try apply S; split; reflexivity.
Qed.

(** X4: on every shown card the total cost is tuition plus living plus
    extra costs, the budget label is that of this total against the
    profile's budget, budget_risk is set exactly on "over_budget" cards and
    cgpa_gap exactly on "ambitious" ones; english_ok_now and english_gap
    are never both set, and they are opposite unless the score is nan. *)
Theorem shown_card_consistent (db : Catalog) (body : json) (r : Response)
    (c : Card) :
  recommend db body = Ok (Json200 r) ->
  In c (recommendations r) ->
  total_first_year_cost_lakhs c = (tuition c + living c + extra c)%Q /\
  card_budget_label c
  = budget_fit_label (PFin (total_first_year_cost_lakhs c))
      (p_budget_lakhs (student_profile r)) /\
  (budget_risk (risk_flags c) = true <-> card_budget_label c = over_budget) /\
  (cgpa_gap (risk_flags c) = true <-> level_band c = ambitious) /\
  (english_ok_now c && english_gap (risk_flags c))%bool = false /\
  (p_english_score (student_profile r) <> PNaN ->
   english_gap (risk_flags c) = negb (english_ok_now c)).
Proof.
  intros R I.
  destruct (shown_in_pool db body r c R I) as (data & raw & _ & _ & P).
  apply candidate_pool_in in P. destruct P as (m & _ & _ & B).
  unfold build_course_response in B.
  destruct (level_eqb _ reject); [discriminate B|].
  pose proof (english_check_exclusive db (m_course m) (student_profile r))
    as X. cbv zeta in X.
  destruct (english_ok_for_course db (m_course m) (student_profile r))
    as [ok gap].
  simpl in X. destruct X as [X1 X2].
  injection B as <-. simpl.
  split; [reflexivity|]. split; [reflexivity|].
  split; [destruct (budget_fit_label _ _); split; congruence|].
  split; [apply level_eqb_eq|].
  split; [exact X1|exact X2].
Qed.

Lemma shown_card_consistent_witness :
  exists r c,
    recommend demo_db (demo_request (JInt 2)) = Ok (Json200 r) /\
    In c (recommendations r) /\
    (cgpa_gap (risk_flags c) = true <-> level_band c = ambitious) /\
    english_gap (risk_flags c) = negb (english_ok_now c).
Proof.
  eexists. eexists.
  split; [vm_compute; reflexivity|].
  split; [left; reflexivity|].
  edestruct (shown_card_consistent demo_db (demo_request (JInt 2)))
    as (_ & _ & _ & G & _ & E).
  - vm_compute. reflexivity.
  - left. reflexivity.
  - split; [exact G|]. apply E. discriminate.
Defined.

(** ** The 400 answer *)

(** X5: the handler answers 400 exactly when the upper-cased country code
    of the request (UK when none is given) is not in the catalogue; the
    check comes before every conversion, so no other field can turn the
    answer into a 400 or, for an unknown country, into an exception. *)
Theorem bad_request_iff_unknown_country (db : Catalog) (data : dict)
    (cc : string) :
  py_upper (py_or (get data "country_code") (JStr "UK")) = Ok cc ->
  (COUNTRY_BY_CODE db cc = None ->
   recommend db (JObj data)
   = Ok (Json400 "Invalid or unsupported country_code")) /\
  (forall e, recommend db (JObj data) = Ok (Json400 e) ->
             COUNTRY_BY_CODE db cc = None).
Proof.
  intros U. unfold recommend. simpl. rewrite U. simpl.
  destruct (COUNTRY_BY_CODE db cc) as [country|].
  - split; [discriminate|]. intros e H. exfalso.
    repeat (apply bind_ok in H;
            let x := fresh "x" in destruct H as (x & _ & H)).
    discriminate H.
  - split; reflexivity.
Qed.

Lemma bad_request_iff_unknown_country_witness :
  py_upper (py_or (get [("country_code", JStr "fr"); ("cgpa", JNull)]
                     "country_code") (JStr "UK")) = Ok "FR" /\
  recommend demo_db (JObj [("country_code", JStr "fr"); ("cgpa", JNull)])
  = Ok (Json400 "Invalid or unsupported country_code").
Proof.
  assert (U : py_upper (py_or (get [("country_code", JStr "fr");
                                    ("cgpa", JNull)]
                                 "country_code") (JStr "UK")) = Ok "FR")
    by reflexivity.
  split; [exact U|].
  apply (proj1 (bad_request_iff_unknown_country demo_db _ "FR" U)).
  reflexivity.
Defined.

(** ** Missing fields of the request *)

(** X6: when the request gives no budget, or a text that is no number, or
    any budget that is not positive, every shown card has the budget label
    "unknown" and no budget_risk. *)
Theorem no_budget_no_label (db : Catalog) (body : json) (r : Response)
    (data : dict) (c : Card) :
  recommend db body = Ok (Json200 r) ->
  request_data body = Ok data ->
  dict_lookup data "budget_lakhs" = None \/
  (exists s, dict_lookup data "budget_lakhs" = Some (JStr s) /\
             parse_float s = None) \/
  pf_le (p_budget_lakhs (student_profile r)) (PFin 0) = true ->
  In c (recommendations r) ->
  card_budget_label c = budget_unknown /\
  budget_risk (risk_flags c) = false.
Proof.
  intros R D B I.
  assert (Z : pf_le (p_budget_lakhs (student_profile r)) (PFin 0) = true).
  { destruct B as [N | [(s & L & P) | Z]]; [| |exact Z].
    - pose proof (recommend_fields db body r R) as F.
      destruct F as (data' & raw & n & F). cbv zeta in F.
      destruct F as (D' & _ & _ & _ & Bu & _).
      rewrite D in D'. injection D' as <-.
      rewrite (float_field_absent _ _ N) in Bu. injection Bu as <-.
      reflexivity.
    - pose proof (recommend_fields db body r R) as F.
      destruct F as (data' & raw & n & F). cbv zeta in F.
      destruct F as (D' & _ & _ & _ & Bu & _).
      rewrite D in D'. injection D' as <-.
      rewrite (float_field_bad_string _ _ _ L P) in Bu. injection Bu as <-.
      reflexivity. }
  destruct (shown_in_pool db body r c R I) as (data' & raw & _ & _ & P).
  apply candidate_pool_in in P. destruct P as (m & _ & _ & Built).
  unfold build_course_response in Built.
  destruct (level_eqb _ reject); [discriminate Built|].
  destruct (english_ok_for_course db (m_course m) (student_profile r))
    as [ok gap].
  injection Built as <-. simpl.
  unfold budget_fit_label. rewrite Z. split; reflexivity.
Qed.

Lemma no_budget_no_label_witness :
  exists r c,
    recommend demo_db (JObj [("cgpa", JInt 9)]) = Ok (Json200 r) /\
    In c (recommendations r) /\
    card_budget_label c = budget_unknown /\
    budget_risk (risk_flags c) = false.
Proof.
  eexists. eexists.
  split; [vm_compute; reflexivity|].
  split; [left; reflexivity|].
  eapply (no_budget_no_label demo_db (JObj [("cgpa", JInt 9)]) _
            [("cgpa", JInt 9)]).
  - vm_compute. reflexivity.
  - reflexivity.
  - left. reflexivity.
  - left. reflexivity.
Defined.

Lemma blank_proof_cards (db : Catalog) (body : json) (r : Response)
    (data : dict) (c : Card) :
  recommend db body = Ok (Json200 r) ->
  request_data body = Ok data ->
  truthy (get data "english_proof_type") = false \/
  p_english_proof_type (student_profile r) = "none" ->
  In c (recommendations r) ->
  english_ok_now c = false /\ english_gap (risk_flags c) = true.
Proof.
  intros R D E I.
  assert (P : p_english_proof_type (student_profile r) = "" \/
              p_english_proof_type (student_profile r) = "none").
  { destruct E as [F | N]; [left|right; exact N].
    pose proof (recommend_fields db body r R) as X.
    destruct X as (data' & raw & n & X). cbv zeta in X.
    destruct X as (D' & _ & _ & _ & _ & _ & _ & _ & _ & _ & L & _).
    rewrite D in D'. injection D' as <-.
    unfold py_or in L. rewrite F in L. simpl in L.
    injection L as <-. reflexivity. }
  destruct (shown_in_pool db body r c R I) as (data' & raw & _ & _ & In_pool).
  apply candidate_pool_in in In_pool. destruct In_pool as (m & _ & _ & B).
  unfold build_course_response in B.
  destruct (level_eqb _ reject); [discriminate B|].
  assert (X : english_ok_for_course db (m_course m) (student_profile r)
              = (false, true)).
  { unfold english_ok_for_course. destruct P as [-> | ->]; reflexivity. }
  rewrite X in B. injection B as <-. simpl. split; reflexivity.
Qed.

(** X7: when the request names no English proof (no field, null or an
    empty text) or the proof "none" in any letter case that lowers to it,
    every shown card has english_ok_now false and english_gap set,
    whatever the score. *)
Theorem no_english_proof_is_a_gap (db : Catalog) (body : json)
    (r : Response) (data : dict) (c : Card) :
  recommend db body = Ok (Json200 r) ->
  request_data body = Ok data ->
  truthy (get data "english_proof_type") = false \/
  p_english_proof_type (student_profile r) = "none" ->
  In c (recommendations r) ->
  english_ok_now c = false /\ english_gap (risk_flags c) = true.
Proof. apply blank_proof_cards. Qed.

Lemma no_english_proof_is_a_gap_witness :
  exists r c,
    recommend demo_db (JObj [("cgpa", JInt 9); ("english_score", JInt 9)])
    = Ok (Json200 r) /\
    In c (recommendations r) /\
    english_ok_now c = false /\ english_gap (risk_flags c) = true.
Proof.
  eexists. eexists.
  split; [vm_compute; reflexivity|].
  split; [left; reflexivity|].
  eapply (no_english_proof_is_a_gap demo_db
            (JObj [("cgpa", JInt 9); ("english_score", JInt 9)]) _
            [("cgpa", JInt 9); ("english_score", JInt 9)]).
  - vm_compute. reflexivity.
  - reflexivity.
  - left. reflexivity.
  - left. reflexivity.
Defined.

(** ** How the filter moves with the profile *)

Lemma pipeline_band_monotone (c1 c2 : pyfloat) (course : Course) :
  pf_le c1 c2 = true ->
  level_order (pipeline_band c2 course)
  <= level_order (pipeline_band c1 course).
Proof.
  unfold pipeline_band, classify_level, pf_ge, pf_sub.
  generalize (or_zero (min_cgpa_india course)). intros m L.
  destruct c1 as [x| | |], c2 as [y| | |]; simpl in L; try discriminate L;
    simpl; try lia; q_solve; simpl; try lia.
Qed.

Lemma eligible_cgpa (cc : string) (clusters : list json) (backlogs : Z)
    (c1 c2 : pyfloat) (m : Merged) :
  pf_le c1 c2 = true ->
  eligible cc clusters backlogs c1 m = true ->
  eligible cc clusters backlogs c2 m = true.
Proof.
  intros L E.
  pose proof (pipeline_band_monotone c1 c2 (m_course m) L) as Mono.
  assert (K : pipeline_band c1 (m_course m) <> unknown)
    by apply classify_level_known.
  unfold eligible in E |- *.
  fold (pipeline_band c1 (m_course m)) in E.
  fold (pipeline_band c2 (m_course m)).
  destruct (negb (String.eqb _ _)); [discriminate E|].
  destruct (_ && _)%bool; [discriminate E|].
  destruct (match max_backlogs _ with Some _ => _ | None => _ end);
    [discriminate E|].
  destruct (_ && _)%bool; [discriminate E|].
  destruct (pipeline_band c1 (m_course m)), (pipeline_band c2 (m_course m));
    simpl in E, Mono |- *;
    try reflexivity; try lia; try discriminate E; try congruence.
Qed.

(** X8: a higher CGPA never harms: the band of a course against it is the
    same or a better one, and every catalogue entry that passed the filter
    still passes it. *)
Theorem higher_cgpa_never_hurts (c1 c2 : pyfloat) :
  pf_le c1 c2 = true ->
  (forall course,
     level_order (pipeline_band c2 course)
     <= level_order (pipeline_band c1 course)) /\
  (forall db cc clusters backlogs,
     incl (matches_of db cc clusters backlogs c1)
          (matches_of db cc clusters backlogs c2)).
Proof.
  intros L. split.
  - intros course. apply pipeline_band_monotone. exact L.
  - intros db cc clusters backlogs m I. unfold matches_of in *.
    apply filter_In in I. destruct I as [I E].
    apply filter_In. split; [exact I|].
    eapply eligible_cgpa; eassumption.
Qed.

Lemma higher_cgpa_never_hurts_witness :
  pf_le (PFin 8.2) (PFin 9) = true /\
  level_order (pipeline_band (PFin 9) (demo_course "ai" "ai" 8.5 10))
  <= level_order (pipeline_band (PFin 8.2) (demo_course "ai" "ai" 8.5 10)) /\
  incl (matches_of demo_db "UK" [] 0 (PFin 8.2))
       (matches_of demo_db "UK" [] 0 (PFin 9)).
Proof.
  assert (L : pf_le (PFin 8.2) (PFin 9) = true) by reflexivity.
  destruct (higher_cgpa_never_hurts (PFin 8.2) (PFin 9) L) as [Band Keep].
  split; [exact L|]. split; [apply Band|apply Keep].
Defined.

(** X9: more backlogs never add a match: every catalogue entry that passes
    the filter for a number of backlogs passes it for any smaller one. *)
Theorem fewer_backlogs_never_hurt (db : Catalog) (cc : string)
    (clusters : list json) (cgpa : pyfloat) (b1 b2 : Z) :
  b1 <= b2 ->
  incl (matches_of db cc clusters b2 cgpa) (matches_of db cc clusters b1 cgpa).
Proof.
  intros L m I. unfold matches_of in *.
  apply filter_In in I. destruct I as [I E].
  apply filter_In. split; [exact I|].
  assert (Q12 : (inject_Z b1 <= inject_Z b2)%Q)
    by (rewrite <- Zle_Qle; exact L).
  unfold eligible in *.
  destruct (negb (String.eqb _ _)); [discriminate E|].
  destruct (_ && _)%bool; [discriminate E|].
  destruct (max_backlogs (m_course m)) as [mb|].
  - destruct (Qltb mb (inject_Z b2)) eqn:L2; [discriminate E|].
    assert (L1 : Qltb mb (inject_Z b1) = false) by q_solve.
    rewrite L1.
    destruct (negb (dflt true (accepts_backlog_history (m_course m))));
      simpl in *; [|exact E].
    destruct (Z.ltb_spec 0 b2); [discriminate E|].
    destruct (Z.ltb_spec 0 b1); [lia|exact E].
  - destruct (negb (dflt true (accepts_backlog_history (m_course m))));
      simpl in *; [|exact E].
    destruct (Z.ltb_spec 0 b2); [discriminate E|].
    destruct (Z.ltb_spec 0 b1); [lia|exact E].
Qed.

Lemma fewer_backlogs_never_hurt_witness :
  0 <= 3 /\
  incl (matches_of demo_db "UK" [] 3 (PFin 8.2))
       (matches_of demo_db "UK" [] 0 (PFin 8.2)).
Proof.
  assert (L : 0 <= 3) by lia.
  split; [exact L|].
  apply (fewer_backlogs_never_hurt demo_db "UK" [] (PFin 8.2) 0 3 L).
Defined.

(** ** Ties in the ranking *)

Lemma filter_firstn_prefix {A : Type} (f : A -> bool) (n : nat)
    (l : list A) :
  filter f l = filter f (firstn n l) ++ filter f (skipn n l).
Proof. rewrite <- filter_app, firstn_skipn. reflexivity. Qed.

Lemma has_key_ambitious (k : Z * Q) (a c : Card) :
  has_key k a = true -> has_key k c = true ->
  level_band a = ambitious -> is_band ambitious c = true.
Proof.
  unfold has_key, is_band, sort_key. simpl. intros A C E.
  apply andb_prop in A. destruct A as [A _].
  apply andb_prop in C. destruct C as [C _].
  apply Z.eqb_eq in A, C. rewrite E in A. simpl in A.
  destruct (level_band c); simpl in *; try reflexivity; lia.
Qed.

Lemma first_ambitious_leads (k : Z * Q) (pool : list Card) (a : Card) :
  find (is_band ambitious) pool = Some a ->
  has_key k a = true ->
  exists rest, filter (has_key k) pool = a :: rest.
Proof.
  intros F K.
  assert (A : level_band a = ambitious).
  { apply find_some in F. apply level_eqb_eq. tauto. }
  induction pool as [|x pool IH]; simpl in F; [discriminate F|].
  simpl. destruct (is_band ambitious x) eqn:X.
  - injection F as ->. rewrite K. eexists. reflexivity.
  - destruct (has_key k x) eqn:KX.
    + rewrite (has_key_ambitious k a x K KX A) in X. discriminate X.
    + apply IH. exact F.
Qed.

Lemma rank_and_select_stable (pool : list Card) (n : Z) (k : Z * Q) :
  0 <= n ->
  exists rest,
    filter (has_key k) pool
    = filter (has_key k) (rank_and_select pool n) ++ rest.
Proof.
  intros H. destruct (rank_and_select_spec pool n H) as [More Same].
  assert (Top : filter (has_key k) pool
                = filter (has_key k) (firstn (Z.to_nat n) (sort_cards pool))
                  ++ filter (has_key k) (skipn (Z.to_nat n) (sort_cards pool))).
  { rewrite <- (sort_cards_stable k pool). apply filter_firstn_prefix. }
  destruct (existsb (is_band ambitious) pool) eqn:P;
    [|rewrite Same by tauto; eexists; exact Top].
  destruct (existsb (is_band ambitious)
              (firstn (Z.to_nat n) (sort_cards pool))) eqn:T;
    [rewrite Same by tauto; eexists; exact Top|].
  destruct (More eq_refl eq_refl) as (a & F & A & -> & _).
  rewrite filter_app. simpl.
  destruct (has_key k a) eqn:K.
  - destruct (first_ambitious_leads k pool a F K) as (rest & R).
    assert (Z : filter (has_key k) (firstn (Z.to_nat n) (sort_cards pool))
                = []).
    { apply filter_none.
      destruct (existsb (has_key k) (firstn (Z.to_nat n) (sort_cards pool)))
        eqn:X; [|reflexivity].
      apply existsb_exists in X. destruct X as (c & I & KC).
      assert (Y : existsb (is_band ambitious)
                    (firstn (Z.to_nat n) (sort_cards pool)) = true).
      { apply existsb_exists. exists c. split; [exact I|].
        exact (has_key_ambitious k a c K KC A). }
      congruence. }
    rewrite Z. simpl. exists rest. exact R.
  - rewrite app_nil_r. eexists. exact Top.
Qed.

(** X10: ties keep the catalogue order: for every sort key (band rank and
    total cost), the shown cards with that key are the first cards of the
    pool with that key, in the order of the pool. *)
Theorem ties_keep_catalogue_order (db : Catalog) (body : json)
    (r : Response) (data : dict) (raw : list json) (k : Z * Q) :
  recommend db body = Ok (Json200 r) ->
  request_data body = Ok data ->
  py_iter (py_or (get data "subject_clusters") (JList [])) = Ok raw ->
  exists rest,
    filter (has_key k)
      (candidate_pool db (student_profile r) (filter truthy raw))
    = filter (has_key k) (recommendations r) ++ rest.
Proof.
  intros R D I. apply recommend_fields in R.
  destruct R as (data' & raw' & n & R). cbv zeta in R.
  destruct R as (D' & _ & _ & _ & _ & _ & _ & _ & I' & _ & _ & N & S & _).
  rewrite D in D'. injection D' as <-.
  rewrite I in I'. injection I' as <-.
  rewrite S. apply rank_and_select_stable.
  apply requested_count_of_range in N. lia.
Qed.

Lemma ties_keep_catalogue_order_witness :
  exists r rest,
    recommend demo_db (demo_request (JInt 1)) = Ok (Json200 r) /\
    filter (has_key (2, 15%Q))
      (candidate_pool demo_db (student_profile r) (filter truthy []))
    = filter (has_key (2, 15%Q)) (recommendations r) ++ rest.
Proof.
  eexists.
  assert (R : recommend demo_db (demo_request (JInt 1)) = Ok (Json200 _))
    by (vm_compute; reflexivity).
  destruct (ties_keep_catalogue_order demo_db (demo_request (JInt 1)) _
              (demo_data (JInt 1)) [] (2, 15%Q) R eq_refl eq_refl)
    as (rest & E).
  exists rest. split; [exact R|exact E].
Defined.

(** ** Which exceptions leave the handler *)










(** ** The intake month *)

Lemma chars_str (l : list ascii) : chars (str l) = l.
Proof. apply list_ascii_of_string_of_list_ascii. Qed.

Lemma str_length (l : list ascii) : String.length (str l) = List.length l.
Proof. induction l as [|c l IH]; simpl; [reflexivity|]. rewrite IH. reflexivity. Qed.

Lemma to_upper_space (c : ascii) : is_space (to_upper c) = is_space c.
Proof. destruct c as [[] [] [] [] [] [] [] []]; reflexivity. Qed.

Lemma to_lower_space (c : ascii) : is_space (to_lower c) = is_space c.
Proof. destruct c as [[] [] [] [] [] [] [] []]; reflexivity. Qed.

Lemma title_from_length (prev : bool) (l : list ascii) :
  List.length (title_from prev l) = List.length l.
Proof.
  revert prev. induction l as [|c l IH]; intros prev; simpl; [reflexivity|].
  rewrite IH. reflexivity.
Qed.

Lemma title_from_no_space (prev : bool) (l : list ascii) :
  Forall (fun c => is_space c = false) l ->
  Forall (fun c => is_space c = false) (title_from prev l).
Proof.
  intros F. revert prev. induction F as [|c l C _ IH]; intros prev; simpl;
    constructor; [|apply IH].
  destruct prev; [rewrite to_lower_space|rewrite to_upper_space]; exact C.
Qed.

Lemma first_word_no_space (l : list ascii) :
  Forall (fun c => is_space c = false) (first_word l).
Proof.
  induction l as [|c l IH]; simpl; [constructor|].
  destruct (is_space c) eqn:S; constructor; assumption.
Qed.

Lemma lstrip_head (l : list ascii) (c : ascii) (t : list ascii) :
  lstrip l = c :: t -> is_space c = false.
Proof.
  induction l as [|x l IH]; simpl; [discriminate|].
  destruct (is_space x) eqn:S; [exact IH|].
  intros H. injection H as <- _. exact S.
Qed.

Lemma lstrip_keeps_last (u : list ascii) (c : ascii) :
  is_space c = false -> exists v, lstrip (u ++ [c]) = v ++ [c].
Proof.
  intros C. induction u as [|x u IH]; simpl.
  - rewrite C. exists []. reflexivity.
  - destruct (is_space x); [exact IH|].
    exists (x :: u). reflexivity.
Qed.

Lemma strip_head (l : list ascii) (c : ascii) (t : list ascii) :
  strip l = c :: t -> is_space c = false.
Proof.
  unfold strip. destruct (lstrip l) as [|x r] eqn:L; [discriminate|].
  pose proof (lstrip_head l x r L) as X.
  simpl rev. destruct (lstrip_keeps_last (rev r) x X) as (v & ->).
  rewrite rev_app_distr. simpl. intros H. injection H as <- _. exact X.
Qed.

(** X12: for a text of ASCII characters, the intake month is at most three
    characters long and holds no whitespace, and it is empty exactly when
    the text holds nothing but whitespace.  A falsy value of any type
    gives the empty month, and a truthy value that is no text raises
    AttributeError. *)
Theorem month_from_intake_string_shape (v : json) :
  match v with
  | JStr s =>
      Forall (fun c => (ord c < 128)%N) (chars s) ->
      exists m,
        month_from_intake_string v = Ok m /\
        (String.length m <= 3)%nat /\
        Forall (fun c => is_space c = false) (chars m) /\
        (m = "" <-> strip (chars s) = [])
  | _ =>
      month_from_intake_string v
      = if truthy v then Raise AttributeError else Ok ""
  end.
Proof.
  destruct v as [|b|z|f|s|l|kv]; unfold month_from_intake_string;
    try (destruct (truthy _); reflexivity).
  intros _. simpl truthy.
  destruct (String.eqb_spec s "") as [->|N]; cbn [negb].
  - exists "". split; [reflexivity|]. split; [simpl; lia|].
    split; [constructor|]. split; reflexivity.
  - destruct (strip (chars s)) as [|c t] eqn:S.
    + exists "". split; [reflexivity|]. split; [simpl; lia|].
      split; [constructor|]. split; reflexivity.
    + eexists. split; [reflexivity|].
      pose proof (strip_head _ _ _ S) as C.
      split; [|split; [|split]].
      * rewrite str_length. unfold title. rewrite title_from_length.
        apply firstn_le_length.
      * rewrite chars_str. apply title_from_no_space.
        pose proof (first_word_no_space (c :: t)) as F.
        rewrite Forall_forall in *. intros x I. apply F.
        rewrite <- (firstn_skipn 3 (first_word (c :: t))).
        apply in_or_app. left. exact I.
      * simpl first_word. rewrite C. simpl. discriminate.
      * discriminate.
Qed.

Lemma month_from_intake_string_shape_witness :
  Forall (fun c => (ord c < 128)%N) (chars "  sePT 2026 ") /\
  month_from_intake_string (JStr "  sePT 2026 ") = Ok "Sep" /\
  exists m,
    month_from_intake_string (JStr "  sePT 2026 ") = Ok m /\
    (String.length m <= 3)%nat /\
    Forall (fun c => is_space c = false) (chars m) /\
    (m = "" <-> strip (chars "  sePT 2026 ") = []).
Proof.
  assert (A : Forall (fun c => (ord c < 128)%N) (chars "  sePT 2026 ")).
  { repeat (constructor; [vm_compute; reflexivity|]). constructor. }
  split; [exact A|]. split; [reflexivity|].
  exact (month_from_intake_string_shape (JStr "  sePT 2026 ") A).
Defined.

(** ** The letter case of the country code *)

Lemma to_upper_idempotent (c : ascii) : to_upper (to_upper c) = to_upper c.
Proof. destruct c as [[] [] [] [] [] [] [] []]; reflexivity. Qed.

Lemma upper_idempotent (s : string) : upper (upper s) = upper s.
Proof.
  unfold upper. rewrite chars_str, map_map. f_equal.
  apply map_ext. intros c. apply to_upper_idempotent.
Qed.

Lemma upper_empty (s : string) : String.eqb (upper s) "" = String.eqb s "".
Proof. destruct s; reflexivity. Qed.

(** X13: the country code is read without regard to letter case: two
    requests that differ only in that one spells the code in upper case
    get the same answer, be it a response, a 400 or an exception. *)
Theorem country_code_case_insensitive (db : Catalog) (data1 data2 : dict)
    (s : string) :
  dict_lookup data1 "country_code" = Some (JStr s) ->
  dict_lookup data2 "country_code" = Some (JStr (upper s)) ->
  (forall k, k <> "country_code" ->
             dict_lookup data1 k = dict_lookup data2 k) ->
  recommend db (JObj data1) = recommend db (JObj data2).
Proof.
  intros L1 L2 Same.
  assert (G : forall k d, k <> "country_code" ->
                          get_or data1 k d = get_or data2 k d).
  { intros k d N. unfold get_or. rewrite (Same k N). reflexivity. }
  assert (U : py_upper (py_or (get data1 "country_code") (JStr "UK"))
              = py_upper (py_or (get data2 "country_code") (JStr "UK"))).
  { unfold get, get_or, py_or. rewrite L1, L2. simpl truthy.
    rewrite upper_empty.
    destruct (negb (String.eqb s "")); simpl; [|reflexivity].
    rewrite upper_idempotent. reflexivity. }
  unfold recommend. cbn [request_data bind]. rewrite U.
  destruct (py_upper (py_or (get data2 "country_code") (JStr "UK")))
    as [cc|e]; [|reflexivity].
  cbn [bind].
  unfold float_field, int_field, requested_count_of, get.
  rewrite !G by discriminate.
  reflexivity.
Qed.

Lemma country_code_case_insensitive_witness :
  recommend demo_db (JObj (("country_code", JStr "uk") :: [("cgpa", JInt 9)]))
  = recommend demo_db
      (JObj (("country_code", JStr "UK") :: [("cgpa", JInt 9)])).
Proof.
  apply (country_code_case_insensitive demo_db _ _ "uk").
  - reflexivity.
  - reflexivity.
  - intros k N. simpl.
    destruct (String.eqb_spec k "country_code") as [E|_];
      [contradiction|reflexivity].
Defined.

(** ** The overall advice *)

Lemma count_band_zero (b : level) (l : list Card) :
  count_band b l = 0%nat <-> Forall (fun c => level_band c <> b) l.
Proof.
  unfold count_band, is_band. induction l as [|c l IH]; simpl.
  - split; [constructor|reflexivity].
  - destruct (level_eqb (level_band c) b) eqn:E; simpl.
    + split; [discriminate|]. intros F. inversion F as [|? ? N _]; subst.
      apply level_eqb_eq in E. contradiction.
    + rewrite IH. split.
      * intros F. constructor; [apply level_eqb_neq; exact E|exact F].
      * intros F. inversion F; assumption.
Qed.

(** X14: the advice is blank exactly for an empty list: english_advice and
    budget_advice are empty, and the headline is the no-match sentence, if
    and only if no card is given.  There are always one or two next steps,
    for a non-empty list the last one is the documents sentence, and there
    are at most two profile gaps. *)
Theorem advice_blank_iff_no_cards (country : Country) (profile : Profile)
    (course_items : list Card) :
  let advice := global_advice_from_results country profile course_items in
  (english_advice advice = "" <-> course_items = []) /\
  (budget_advice advice = "" <-> course_items = []) /\
  (headline advice = headline_none <-> course_items = []) /\
  (1 <= List.length (next_steps advice) <= 2)%nat /\
  (course_items <> [] ->
   last (next_steps advice) "" = step_documents) /\
  (List.length (profile_gaps advice) <= 2)%nat.
Proof.
  destruct course_items as [|c l].
  - simpl. repeat split; try reflexivity; try lia.
    intros N. contradiction N. reflexivity.
  - cbv zeta. unfold global_advice_from_results.
    cbn [headline english_advice budget_advice next_steps profile_gaps].
    split; [|split; [|split; [|split; [|split]]]].
    + split; [|discriminate].
      destruct (one_of _ _); discriminate.
    + split; [|discriminate].
      destruct (0 <? _)%nat; discriminate.
    + split; [|discriminate].
      destruct (3 <=? _)%nat; [discriminate|].
      destruct (_ || _)%bool; discriminate.
    + destruct (opt_string_eqb (c_name country) "United Kingdom");
        [simpl; lia|].
      destruct (opt_string_eqb (c_name country) "United States");
        simpl; lia.
    + intros _.
      destruct (opt_string_eqb (c_name country) "United Kingdom");
        [reflexivity|].
      destruct (opt_string_eqb (c_name country) "United States");
        reflexivity.
    + destruct (existsb _ _), (existsb _ _); simpl; lia.
Qed.

(** X15: for cards that carry the bands of a response, the headline of a
    non-empty list is the shortlist sentence exactly when at least three
    cards are safe, and it is left empty exactly when there are one or two
    cards and all of them are safe; in every other case it is the
    strong-profile sentence. *)
Theorem headline_by_bands (country : Country) (profile : Profile)
    (course_items : list Card) :
  course_items <> [] ->
  Forall shown_band course_items ->
  let head := headline (global_advice_from_results country profile
                          course_items) in
  (head = headline_safe <-> (3 <= count_band safe course_items)%nat) /\
  (head = "" <->
   (List.length course_items < 3)%nat /\
   Forall (fun c => level_band c = safe) course_items) /\
  (head = headline_safe \/ head = "" \/ head = headline_stretch).
Proof.
  intros NE F. pose proof (count_band_total course_items F) as T.
  destruct course_items as [|c l]; [contradiction NE; reflexivity|].
  cbv zeta. unfold global_advice_from_results. cbn [headline].
  set (items := c :: l) in *.
  assert (AllSafe : Forall (fun x => level_band x = safe) items <->
                    count_band moderate items = 0%nat /\
                    count_band ambitious items = 0%nat).
  { rewrite !count_band_zero. rewrite !Forall_forall in *. split.
    - intros S. split; intros x I; rewrite (S x I); discriminate.
    - intros [M A] x I. destruct (F x I) as [E | [E | E]]; [exact E| |].
      + exfalso. exact (M x I E).
      + exfalso. exact (A x I E). }
  destruct (Nat.leb_spec 3 (count_band safe items)) as [S|S].
  - split; [split; [intros _; exact S|reflexivity]|].
    split; [|left; reflexivity].
    split; [discriminate|]. intros [L _]. lia.
  - split; [split; [|intros X; lia]|].
    { destruct (_ || _)%bool; discriminate. }
    destruct (Nat.ltb_spec 0 (count_band moderate items)) as [M|M];
      cbn [orb].
    + split; [|right; right; reflexivity].
      split; [discriminate|]. intros [_ A]. apply AllSafe in A. lia.
    + destruct (Nat.ltb_spec 0 (count_band ambitious items)) as [A|A].
      * split; [|right; right; reflexivity].
        split; [discriminate|]. intros [_ X]. apply AllSafe in X. lia.
      * split; [|right; left; reflexivity].
        split; [|reflexivity]. intros _.
        split; [lia|]. apply AllSafe. lia.
Qed.

Lemma headline_by_bands_witness :
  exists r,
    recommend demo_db (demo_request (JInt 1)) = Ok (Json200 r) /\
    recommendations r <> [] /\
    Forall shown_band (recommendations r) /\
    headline (global_advice_from_results uk (student_profile r)
                (recommendations r)) = headline_stretch.
Proof.
  eexists.
  assert (R : recommend demo_db (demo_request (JInt 1)) = Ok (Json200 _))
    by (vm_compute; reflexivity).
  split; [exact R|].
  match type of R with _ = Ok (Json200 ?r) => set (resp := r) in * end.
  assert (NE : recommendations resp <> []) by discriminate.
  assert (F : Forall shown_band (recommendations resp)).
  { repeat constructor; unfold shown_band; simpl; tauto. }
  split; [exact NE|]. split; [exact F|].
  destruct (headline_by_bands uk (student_profile resp)
              (recommendations resp) NE F) as (S & E & Cases).
  destruct Cases as [H | [H | H]]; [| |exact H].
  - apply S in H. vm_compute in H. lia.
  - apply E in H. destruct H as [_ A].
    inversion A as [|? ? _ A']; subst. inversion A' as [|? ? B _]; subst.
    discriminate B.
Defined.

(** X16: for a request that names no English proof at all, every shown
    card has english_gap set, while the English advice on the list is the
    reassurance sentence: the test recommendation is given for the proofs
    "none", "inter" and "medium" only, and the empty proof is none of
    them. *)
Theorem blank_proof_advice (db : Catalog) (body : json) (r : Response)
    (data : dict) (country : Country) :
  recommend db body = Ok (Json200 r) ->
  request_data body = Ok data ->
  truthy (get data "english_proof_type") = false ->
  recommendations r <> [] ->
  Forall (fun c => english_gap (risk_flags c) = true) (recommendations r) /\
  english_advice (global_advice_from_results country (student_profile r)
                    (recommendations r)) = english_fine.
Proof.
  intros R D F NE. split.
  - apply Forall_forall. intros c I.
    apply (blank_proof_cards db body r data c R D (or_introl F) I).
  - pose proof (recommend_fields db body r R) as X.
    destruct X as (data' & raw & n & X). cbv zeta in X.
    destruct X as (D' & _ & _ & _ & _ & _ & _ & _ & _ & _ & L & _).
    rewrite D in D'. injection D' as <-.
    unfold py_or in L. rewrite F in L. simpl in L. injection L as L.
    destruct (recommendations r) as [|c l]; [contradiction NE; reflexivity|].
    unfold global_advice_from_results. cbn [english_advice].
    rewrite <- L. reflexivity.
Qed.

Lemma blank_proof_advice_witness :
  exists r,
    recommend demo_db (JObj [("cgpa", JInt 9)]) = Ok (Json200 r) /\
    Forall (fun c => english_gap (risk_flags c) = true) (recommendations r) /\
    english_advice (global_advice_from_results uk (student_profile r)
                      (recommendations r)) = english_fine.
Proof.
  eexists.
  assert (R : recommend demo_db (JObj [("cgpa", JInt 9)]) = Ok (Json200 _))
    by (vm_compute; reflexivity).
  split; [exact R|].
  apply (blank_proof_advice demo_db (JObj [("cgpa", JInt 9)]) _
           [("cgpa", JInt 9)] uk R).
  - reflexivity.
  - reflexivity.
  - discriminate.
Defined.

(** ** The clusters of a country *)

Lemma count_course_keys (cluster : string) (name : option string)
    (acc : list ClusterInfo) :
  map ci_subject_cluster (count_course cluster name acc)
  = if existsb (fun i => String.eqb (ci_subject_cluster i) cluster) acc
    then map ci_subject_cluster acc
    else map ci_subject_cluster acc ++ [cluster].
Proof.
  induction acc as [|info acc IH]; simpl; [reflexivity|].
  destruct (String.eqb (ci_subject_cluster info) cluster); simpl;
    [reflexivity|].
  rewrite IH. destruct (existsb _ acc); reflexivity.
Qed.

Lemma count_course_sum (cluster : string) (name : option string)
    (acc : list ClusterInfo) :
  list_sum (map ci_count (count_course cluster name acc))
  = S (list_sum (map ci_count acc)).
Proof.
  induction acc as [|info acc IH]; simpl; [reflexivity|].
  destruct (String.eqb (ci_subject_cluster info) cluster); simpl;
    [reflexivity|].
  rewrite IH. lia.
Qed.

(** An entry of the updated table is an old entry of another cluster, the
    old entry of this cluster with one more course, or the new entry. *)
Lemma count_course_in (cluster : string) (name : option string)
    (acc : list ClusterInfo) (info : ClusterInfo) :
  NoDup (map ci_subject_cluster acc) ->
  In info (count_course cluster name acc) ->
  (In info acc /\ ci_subject_cluster info <> cluster) \/
  (exists old,
     In old acc /\ ci_subject_cluster old = cluster /\
     ci_subject_cluster info = cluster /\
     ci_display_name info = ci_display_name old /\
     ci_example_course info = ci_example_course old /\
     ci_count info = S (ci_count old)) \/
  (~ In cluster (map ci_subject_cluster acc) /\
   info = {| ci_subject_cluster := cluster;
             ci_display_name := display_name_of cluster;
             ci_example_course := name;
             ci_count := 1 |}).
Proof.
  induction acc as [|x acc IH]; simpl; intros ND I.
  - destruct I as [<- | []]. right. right. split; [tauto|reflexivity].
  - inversion ND as [|? ? NI ND']; subst.
    destruct (String.eqb_spec (ci_subject_cluster x) cluster) as [E|N].
    + destruct I as [<- | I].
      * right. left. exists x. simpl. repeat split; auto.
      * left. split; [right; exact I|].
        intros E'. apply NI. rewrite E, <- E'.
        apply in_map. exact I.
    + destruct I as [<- | I]; [left; split; [left; reflexivity|exact N]|].
      destruct (IH ND' I) as [[I' N'] | [(old & I' & R) | [NI' ->]]].
      * left. split; [right; exact I'|exact N'].
      * right. left. exists old. split; [right; exact I'|exact R].
      * right. right. split; [|reflexivity].
        intros [E | I']; [exact (N E)|exact (NI' I')].
Qed.

Lemma count_clusters_snoc (courses : list CourseDoc) (c : CourseDoc) :
  count_clusters (courses ++ [c])
  = count_course (cluster_of c) (cd_name c) (count_clusters courses).
Proof. unfold count_clusters. rewrite fold_left_app. reflexivity. Qed.

Lemma existsb_key_in (cluster : string) (acc : list ClusterInfo) :
  existsb (fun i => String.eqb (ci_subject_cluster i) cluster) acc = true
  <-> In cluster (map ci_subject_cluster acc).
Proof.
  rewrite existsb_exists, in_map_iff. split.
  - intros (i & I & E). apply String.eqb_eq in E. exists i. tauto.
  - intros (i & E & I). exists i. split; [exact I|].
    apply String.eqb_eq. exact E.
Qed.

Lemma count_clusters_spec (courses : list CourseDoc) :
  let clusters := count_clusters courses in
  let members (k : string) :=
    filter (fun c => String.eqb (cluster_of c) k) courses in
  NoDup (map ci_subject_cluster clusters) /\
  list_sum (map ci_count clusters) = List.length courses /\
  (forall c, In c courses ->
             In (cluster_of c) (map ci_subject_cluster clusters)) /\
  (forall info, In info clusters ->
     ci_count info = List.length (members (ci_subject_cluster info)) /\
     ci_display_name info = display_name_of (ci_subject_cluster info) /\
     exists first rest,
       members (ci_subject_cluster info) = first :: rest /\
       ci_example_course info = cd_name first).
Proof.
  cbv zeta. induction courses as [|c courses IH] using rev_ind.
  - simpl. split; [constructor|]. split; [reflexivity|].
    split; intros ? [].
  - destruct IH as (ND & Sum & Cover & Each).
    rewrite count_clusters_snoc.
    split; [|split; [|split]].
    + rewrite count_course_keys.
      destruct (existsb _ _) eqn:X; [exact ND|].
      apply NoDup_app_remove_l with (l := []). simpl.
      apply Permutation_NoDup with (l := cluster_of c
                                           :: map ci_subject_cluster
                                                (count_clusters courses)).
      * apply Permutation_cons_append.
      * constructor; [|exact ND].
        intros I. apply existsb_key_in in I. congruence.
    + rewrite count_course_sum, Sum, length_app. simpl. lia.
    + intros x I. rewrite count_course_keys.
      apply in_app_or in I. destruct I as [I | [<- | []]].
      * specialize (Cover x I).
        destruct (existsb _ _); [exact Cover|].
        apply in_or_app. left. exact Cover.
      * destruct (existsb _ _) eqn:X.
        -- apply existsb_key_in. exact X.
        -- apply in_or_app. right. left. reflexivity.
    + intros info I. rewrite filter_app. simpl.
      apply count_course_in in I; [|exact ND].
      destruct I as [[I N] | [(old & I & K & K' & Dn & Ex & Cn) | [NI ->]]].
      * destruct (Each info I) as (Cn & Dn & first & rest & M & Ex).
        destruct (String.eqb_spec (cluster_of c) (ci_subject_cluster info))
          as [E|_]; [symmetry in E; contradiction|].
        rewrite app_nil_r. split; [exact Cn|]. split; [exact Dn|].
        exists first, rest. split; assumption.
      * destruct (Each old I) as (Cn' & Dn' & first & rest & M & Ex').
        rewrite K'. rewrite K in *.
        rewrite String.eqb_refl, length_app. simpl.
        split; [lia|]. split; [congruence|].
        exists first, (rest ++ [c]). rewrite M. split; [reflexivity|].
        congruence.
      * simpl. rewrite String.eqb_refl.
        assert (Z : filter (fun x => String.eqb (cluster_of x) (cluster_of c))
                      courses = []).
        { apply filter_none.
          destruct (existsb _ courses) eqn:X; [|reflexivity].
          apply existsb_exists in X. destruct X as (x & I & E).
          apply String.eqb_eq in E. exfalso. apply NI.
          rewrite <- E. apply Cover. exact I. }
        rewrite Z. simpl. split; [reflexivity|]. split; [reflexivity|].
        exists c, []. split; reflexivity.
Qed.

(** X17: [get_courses] answers 404 exactly when the upper-cased code is
    not a country of the catalogue.  Otherwise it lists every subject
    cluster of the country once, the count of a cluster is the number of
    the country's courses in it (so the counts add up to the number of
    courses and none is zero), its example is the name of the first such
    course, and its display name is derived from the cluster name. *)
Theorem get_courses_counts (docs : list CountryDoc) (country_code : string) :
  match get_courses docs country_code with
  | Courses404 _ => country_doc_by_code docs (upper country_code) = None
  | Courses200 clusters =>
      exists country,
        country_doc_by_code docs (upper country_code) = Some country /\
        c_code (cn_fields country) = upper country_code /\
        let courses := courses_of_country country in
        let members (k : string) :=
          filter (fun c => String.eqb (cluster_of c) k) courses in
        NoDup (map ci_subject_cluster clusters) /\
        list_sum (map ci_count clusters) = List.length courses /\
        (forall c, In c courses ->
                   In (cluster_of c) (map ci_subject_cluster clusters)) /\
        (forall info, In info clusters ->
           ci_count info = List.length (members (ci_subject_cluster info)) /\
           ci_display_name info = display_name_of (ci_subject_cluster info) /\
           exists first rest,
             members (ci_subject_cluster info) = first :: rest /\
             ci_example_course info = cd_name first)
  end.
Proof.
  unfold get_courses.
  destruct (country_doc_by_code docs (upper country_code)) as [country|] eqn:L;
    [|reflexivity].
  exists country. split; [reflexivity|]. split.
  - unfold country_doc_by_code in L. apply find_some in L.
    destruct L as [_ E]. apply String.eqb_eq in E. exact E.
  - apply count_clusters_spec.
Qed.

Example get_courses_demo :
  get_courses demo_docs "uk"
  = Courses200
      [ {| ci_subject_cluster := "artificial_intelligence";
           ci_display_name := "Artificial Intelligence";
           ci_example_course := Some "ai"; ci_count := 2 |};
        {| ci_subject_cluster := "data_science";
           ci_display_name := "Data Science";
           ci_example_course := Some "ds"; ci_count := 1 |};
        {| ci_subject_cluster := "mba"; ci_display_name := "Mba";
           ci_example_course := Some "mba"; ci_count := 1 |};
        {| ci_subject_cluster := "computer_science";
           ci_display_name := "Computer Science";
           ci_example_course := Some "cs"; ci_count := 1 |} ].
Proof. vm_compute. reflexivity. Qed.

(** ** Loading the catalogue *)

Lemma collect_countries_empty (files : list (option json)) :
  collect_countries files = Ok [] <->
  Forall (fun f => match f with
                   | None => True
                   | Some data => countries_of_file data = Ok []
                   end) files.
Proof.
  induction files as [|[data|] files IH]; simpl.
  - split; [constructor|reflexivity].
  - destruct (countries_of_file data) as [cs|e] eqn:C; simpl.
    + destruct (collect_countries files) as [more|e] eqn:M; simpl.
      * split.
        -- intros H. injection H as H. apply app_eq_nil in H.
           destruct H as [-> ->]. constructor; [exact C|].
           apply IH. reflexivity.
        -- intros F. inversion F as [|? ? C' F']; subst.
           rewrite C in C'. injection C' as ->.
           apply IH in F'. injection F' as ->. reflexivity.
      * split; [discriminate|].
        intros F. inversion F as [|? ? _ F']; subst.
        apply IH in F'. discriminate F'.
    + split; [discriminate|].
      intros F. inversion F as [|? ? C' _]; subst.
      rewrite C in C'. discriminate C'.
  - rewrite IH. split.
    + intros F. constructor; [exact I|exact F].
    + intros F. inversion F; assumption.
Qed.

Lemma map_result_in {A B : Type} (f : A -> result B) (l : list A)
    (ys : list B) (y : B) :
  map_result f l = Ok ys -> In y ys -> exists x, In x l /\ f x = Ok y.
Proof.
  revert ys. induction l as [|x l IH]; simpl; intros ys H I.
  - injection H as <-. destruct I.
  - apply bind_ok in H. destruct H as (y0 & F & H).
    apply bind_ok in H. destruct H as (ys0 & M & H).
    injection H as <-. destruct I as [<- | I].
    + exists x. split; [left; reflexivity|exact F].
    + destruct (IH ys0 M I) as (x' & I' & F').
      exists x'. split; [right; exact I'|exact F'].
Qed.

Lemma merged_of_country_in (country : json) (ms : list MergedJson)
    (m : MergedJson) :
  merged_of_country country = Ok ms -> In m ms ->
  exists ckv ukv kv unis courses,
    country = JObj ckv /\
    mj_country m = country /\
    mj_country_code m = get ckv "code" /\
    mj_country_name m = get ckv "name" /\
    py_iter (get_or ckv "universities" (JList [])) = Ok unis /\
    In (mj_university m) unis /\
    mj_university m = JObj ukv /\
    mj_university_name m = get_or ukv "name" (JStr "Unknown University") /\
    mj_city m = get_or ukv "city" (JStr "") /\
    py_iter (get_or ukv "courses" (JList [])) = Ok courses /\
    In (mj_course m) courses /\
    mj_course m = JObj kv /\
    mj_course_id m = get kv "id".
Proof.
  unfold merged_of_country. destruct country as [| | | | | |ckv];
    try discriminate.
  intros H I.
  apply bind_ok in H. destruct H as (unis & U & H).
  apply bind_ok in H. destruct H as (per_uni & P & H).
  injection H as <-.
  apply in_concat in I. destruct I as (ms' & I' & I).
  destruct (map_result_in _ _ _ _ P I') as (uni & IU & FU).
  unfold merged_of_university in FU.
  destruct uni as [| | | | | |ukv]; try discriminate FU.
  apply bind_ok in FU. destruct FU as (courses & C & FU).
  destruct (map_result_in _ _ _ _ FU I) as (course & IC & FC).
  unfold merged_of_course in FC.
  destruct course as [| | | | | |kv]; try discriminate FC.
  injection FC as <-. simpl.
  exists ckv, ukv, kv, unis, courses.
  repeat (split; [reflexivity || assumption|]). reflexivity.
Qed.

(** X18: for data files that are missing or were parsed by [json.load]:
    when none of them contributes a country, [load_db] raises ValueError;
    when [load_db] returns, its country list is not empty and holds the
    contributed countries in file order, and every flat entry carries a
    country of that list, one of its universities and one of that
    university's courses, all three of them dicts, with the country's code
    and name, the university's name (or "Unknown University") and city
    (or the empty text) and the course's id.  A missing file is
    skipped. *)
Theorem load_db_result (files : list (option json)) :
  (Forall (fun f => match f with
                    | None => True
                    | Some data => countries_of_file data = Ok []
                    end) files ->
   load_db files = Raise ValueError) /\
  (forall db, load_db files = Ok db ->
     ld_countries db <> [] /\
     collect_countries files = Ok (ld_countries db) /\
     forall m, In m (ld_flat_courses db) ->
       In (mj_country m) (ld_countries db) /\
       exists ckv ukv kv unis courses,
         mj_country m = JObj ckv /\
         mj_country_code m = get ckv "code" /\
         mj_country_name m = get ckv "name" /\
         py_iter (get_or ckv "universities" (JList [])) = Ok unis /\
         In (mj_university m) unis /\
         mj_university m = JObj ukv /\
         mj_university_name m
         = get_or ukv "name" (JStr "Unknown University") /\
         mj_city m = get_or ukv "city" (JStr "") /\
         py_iter (get_or ukv "courses" (JList [])) = Ok courses /\
         In (mj_course m) courses /\
         mj_course m = JObj kv /\
         mj_course_id m = get kv "id") /\
  load_db (None :: files) = load_db files.
Proof.
  split; [|split; [|reflexivity]].
  - intros F. apply collect_countries_empty in F.
    unfold load_db, load_countries. rewrite F. reflexivity.
  - intros db H. unfold load_db in H.
    apply bind_ok in H. destruct H as (cs & L & H).
    apply bind_ok in H. destruct H as (per_country & P & H).
    injection H as <-. simpl.
    unfold load_countries in L.
    apply bind_ok in L. destruct L as (cs' & C & L).
    destruct cs' as [|c cs']; simpl in L; [discriminate L|].
    injection L as <-.
    split; [discriminate|]. split; [exact C|].
    intros m I. apply in_concat in I. destruct I as (ms & I' & I).
    destruct (map_result_in _ _ _ _ P I') as (country & IC & FC).
    destruct (merged_of_country_in country ms m FC I)
      as (ckv & ukv & kv & unis & courses & E & MC & R).
    split; [rewrite MC; exact IC|].
    exists ckv, ukv, kv, unis, courses.
    split; [rewrite MC; exact E|exact R].
Qed.

Lemma load_db_result_witness :
  load_db [None; Some (JObj [("code", JStr "UK")]); Some (JInt 3)]
  = Raise ValueError /\
  exists db,
    load_db
      [None;
       Some (JObj
         [("code", JStr "UK");
          ("universities",
           JList [JObj [("courses", JList [JObj [("id", JStr "ds")]])]])])]
    = Ok db /\
    ld_countries db <> [] /\
    map mj_course_id (ld_flat_courses db) = [JStr "ds"] /\
    map mj_university_name (ld_flat_courses db)
    = [JStr "Unknown University"].
Proof.
  split.
  - apply (proj1 (load_db_result _)).
    repeat constructor.
  - eexists.
    assert (L : load_db
                  [None;
                   Some (JObj
                     [("code", JStr "UK");
                      ("universities",
                       JList [JObj [("courses",
                                     JList [JObj [("id", JStr "ds")]])]])])]
                = Ok _) by reflexivity.
    split; [exact L|].
    split; [exact (proj1 (proj1 (proj2 (load_db_result _)) _ L))|].
    split; reflexivity.
Defined.

(** A university entry that is no dict stops the flattening loop. *)
Example load_db_null_university :
  load_db [None;
           Some (JObj [("code", JStr "UK");
                       ("universities", JList [JNull])])]
  = Raise AttributeError.
Proof. reflexivity. Qed.

Lemma flat_map_length_sum {A B : Type} (f : A -> list B) (l : list A) :
  List.length (flat_map f l)
  = list_sum (map (fun x => List.length (f x)) l).
Proof.
  induction l as [|x l IH]; simpl; [reflexivity|].
  rewrite length_app, IH. reflexivity.
Qed.

Lemma flatten_country_length (country : CountryDoc) :
  List.length (flatten_country country)
  = List.length (courses_of_country country).
Proof.
  unfold flatten_country, courses_of_country.
  rewrite !flat_map_length_sum. f_equal.
  apply map_ext. intros uni. apply length_map.
Qed.

Lemma load_flat_courses_in (docs : list CountryDoc) (m : Merged) :
  In m (load_flat_courses docs) ->
  exists country uni course,
    In country docs /\ In uni (cn_universities country) /\
    In course (ud_courses uni) /\
    m = {| m_country_code := c_code (cn_fields country);
           m_country := cn_fields country;
           m_university := ud_fields uni;
           m_course := cd_fields course |}.
Proof.
  unfold load_flat_courses, flatten_country. intros I.
  apply in_flat_map in I. destruct I as (country & IC & I).
  apply in_flat_map in I. destruct I as (uni & IU & I).
  apply in_map_iff in I. destruct I as (course & E & ICo).
  exists country, uni, course. repeat split; auto.
Qed.

(** X19: in the tables built by [load_db], every flat entry carries the
    code of its own country, which is one of the loaded countries, and
    there is one entry per course; a lookup by code returns a country with
    that code.  On such a catalogue every shown card carries the country
    code of the request. *)
Theorem loaded_catalogue_consistent (docs : list CountryDoc) :
  let db := catalog_of docs in
  (forall m, In m (flat_courses db) ->
     m_country_code m = c_code (m_country m) /\
     In (m_country m) (countries db)) /\
  List.length (flat_courses db)
  = list_sum (map (fun country => List.length (courses_of_country country))
                  docs) /\
  (forall cc c, COUNTRY_BY_CODE db cc = Some c ->
                c_code c = cc /\ In c (countries db)) /\
  (forall body r c,
     recommend db body = Ok (Json200 r) ->
     In c (recommendations r) ->
     country_code c = p_country_code (student_profile r)).
Proof.
  cbv zeta.
  assert (Flat : forall m, In m (flat_courses (catalog_of docs)) ->
                 m_country_code m = c_code (m_country m) /\
                 In (m_country m) (countries (catalog_of docs))).
  { intros m I. simpl in I. apply load_flat_courses_in in I.
    destruct I as (country & uni & course & IC & _ & _ & ->). simpl.
    split; [reflexivity|]. apply in_map. exact IC. }
  split; [exact Flat|]. split; [|split].
  - simpl. unfold load_flat_courses. rewrite flat_map_length_sum.
    f_equal. apply map_ext. intros country. apply flatten_country_length.
  - intros cc c L. unfold COUNTRY_BY_CODE in L. apply find_some in L.
    destruct L as [I E]. apply String.eqb_eq in E.
    split; [exact E|]. apply in_rev. exact I.
  - intros body r c R I.
    destruct (shown_in_pool _ body r c R I) as (data & raw & _ & _ & P).
    apply candidate_pool_in in P. destruct P as (m & F & E & B).
    apply eligible_inv in E. destruct E as (CC & _).
    destruct (Flat m F) as [Code _].
    unfold build_course_response in B.
    destruct (level_eqb _ reject); [discriminate B|].
    destruct (english_ok_for_course _ (m_course m) (student_profile r))
      as [ok gap].
    injection B as <-. simpl. rewrite <- Code. exact CC.
Qed.

Lemma loaded_catalogue_consistent_witness :
  exists r c,
    recommend (catalog_of demo_docs) (demo_request (JInt 2))
    = Ok (Json200 r) /\
    In c (recommendations r) /\
    country_code c = p_country_code (student_profile r).
Proof.
  eexists. eexists.
  assert (R : recommend (catalog_of demo_docs) (demo_request (JInt 2))
              = Ok (Json200 _)) by (vm_compute; reflexivity).
  split; [exact R|].
  match type of R with _ = Ok (Json200 ?x) => set (resp := x) in * end.
  assert (I : In _ (recommendations resp)) by (left; reflexivity).
  split; [exact I|].
  exact (proj2 (proj2 (proj2 (loaded_catalogue_consistent demo_docs)))
           _ _ _ R I).
Defined.

(** ** The narrative lists of a card *)

Lemma firstn_prefix {A : Type} (n : nat) (l : list A) :
  exists rest, l = firstn n l ++ rest.
Proof. exists (skipn n l). symmetry. apply firstn_skipn. Qed.

(** X20: the narrative lists of a card are bounded.  The pros are the
    first entries, at most eight, of the university highlights followed by
    the course highlights.  The cons are never empty and at most eight:
    the first cautions of the university followed by those of the course,
    or the one general sentence when there is no caution at all.  The
    course reasons are at most five and end with the placement and the
    flagship sentence exactly when the course has these marks. *)
Theorem narrative_lists_bounded (uni : UniversityDoc) (course : CourseDoc) :
  let all_pros := highlights uni ++ course_highlights course in
  let all_cons := cautions uni ++ course_cautions course in
  (List.length (build_pros uni course) <= 8)%nat /\
  (exists rest, all_pros = build_pros uni course ++ rest) /\
  (List.length all_pros <= 8 -> build_pros uni course = all_pros)%nat /\
  (1 <= List.length (build_cons uni course) <= 8)%nat /\
  (all_cons = [] <-> build_cons uni course = [no_red_flags]
                     /\ ~ In no_red_flags all_cons) /\
  (all_cons <> [] -> exists rest, all_cons = build_cons uni course ++ rest) /\
  (List.length (build_why_course course) <= 5)%nat /\
  (In "Includes placement / internship component (subject to availability)."
      (skipn (Nat.min 3 (List.length (course_highlights course)))
             (build_why_course course))
   <-> with_placement course = Some true).
Proof.
  cbv zeta. unfold build_pros, build_cons.
  split; [apply firstn_le_length|].
  split; [apply firstn_prefix|].
  split; [intros L; apply firstn_all2; exact L|].
  split; [|split; [|split; [|split]]].
  - destruct (cautions uni ++ course_cautions course) as [|x l] eqn:C.
    + simpl. lia.
    + pose proof (firstn_le_length 8 (x :: l)) as L.
      split; [|exact L]. simpl. lia.
  - split.
    + intros ->. split; [reflexivity|]. intros [].
    + intros [E N].
      destruct (cautions uni ++ course_cautions course) as [|x l];
        [reflexivity|].
      exfalso. apply N. simpl in E. injection E as -> _.
      left. reflexivity.
  - intros NE.
    destruct (cautions uni ++ course_cautions course) as [|x l] eqn:C;
      [contradiction NE; reflexivity|].
    apply firstn_prefix.
  - unfold build_why_course. rewrite !length_app.
    pose proof (firstn_le_length 3 (course_highlights course)) as L.
    destruct (dflt false (with_placement course)),
             (dflt false (is_flagship course));
      cbn [List.length]; lia.
  - unfold build_why_course.
    rewrite <- (length_firstn 3 (course_highlights course)).
    rewrite skipn_app, skipn_all, Nat.sub_diag. simpl.
    destruct (with_placement course) as [[|]|]; simpl;
      destruct (dflt false (is_flagship course)); simpl;
      split; intros H; try discriminate H; try reflexivity;
      try (left; reflexivity);
      try (destruct H as [H | H]; [discriminate H|destruct H]);
      try destruct H.
Qed.

Lemma narrative_lists_bounded_witness :
  build_cons demo_uni_doc (demo_course_doc "ds" "data_science" 7 20)
  = [no_red_flags] /\
  build_pros demo_uni_doc (demo_course_doc "ds" "data_science" 7 20)
  = ["Strong research"; "City campus"; "Industry projects"].
Proof.
  destruct (narrative_lists_bounded demo_uni_doc
              (demo_course_doc "ds" "data_science" 7 20))
    as (_ & _ & Pros & _ & Cons & _).
  split.
  - apply (proj1 (proj1 Cons eq_refl)).
  - apply Pros. simpl. lia.
Defined.
